(** * smart-splash: the screenshot-driven boot-phase detector

    A shallow embedding of [scripts/smart-splash.py] (class [SmartSplash]):
    [analyze_screenshot] (PPM header reading, strided pixel sampling, colour
    classification, percentages) and [monitor_vnc] (the polling loop that turns
    successive samples into one call of [schedule_close]), followed by the
    properties of the boot-phase detector that hold of this code.

    Python values are modelled as follows.
    - [bytes] objects are [list byte]; one indexed byte is a [Z] in 0..255.
    - [int] is [Z].
    - [float] is the kernel's binary64 [float]: [yellow_count / total_samples]
      and the product with [100] are IEEE-754 double operations in Python, and
      [PrimFloat.div] and [PrimFloat.mul] are the same operations.
    - code inside [try: ... except: ...] runs in the [result] monad below; every
      handler of the file catches every [Exception], so one [Raise] suffices. *)

From Stdlib Require Import ZArith List Bool Lia.
From Stdlib Require Import Strings.Byte.
From Stdlib Require Import Uint63 Floats.
Import ListNotations.

Local Open Scope Z_scope.

(** ** Python primitives used by the script *)

Module Py.

(** The outcome of code that may raise. *)
Inductive result (A : Type) : Type :=
| Ok (a : A)
| Raise.
Arguments Ok {A} a.
Arguments Raise {A}.

Definition bind {A B : Type} (m : result A) (k : A -> result B) : result B :=
  match m with
  | Ok a => k a
  | Raise => Raise
  end.

(** [len(data)] *)
Definition len {A : Type} (data : list A) : Z := Z.of_nat (length data).

(** [len(range(start, stop, step))] for a positive [step]. *)
Definition range_len (start stop step : Z) : Z :=
  if stop <=? start then 0 else (stop - start + step - 1) / step.

(** [range(start, stop, step)] for a positive [step]: [start], [start+step], ...
    below [stop]. *)
Definition range (start stop step : Z) : list Z :=
  map (fun k => start + Z.of_nat k * step)
      (seq 0 (Z.to_nat (range_len start stop step))).

(** [data[i]] on a [bytes] object: an [int] in 0..255; a negative index counts
    from the end; an index out of range raises [IndexError]. *)
Definition getitem (data : list byte) (i : Z) : result Z :=
  let j := if i <? 0 then i + len data else i in
  if j <? 0 then Raise
  else match nth_error data (Z.to_nat j) with
       | Some b => Ok (Z.of_N (Byte.to_N b))
       | None => Raise
       end.

(** [f.readline()] on a binary file whose unread content is [f]: the bytes up
    to and including the first newline (all of [f] when it has none), and the
    content left unread. *)
Fixpoint readline (f : list byte) : list byte * list byte :=
  match f with
  | [] => ([], [])
  | c :: rest =>
      if Byte.eqb c x0a then ([c], rest)
      else let '(line, rest') := readline rest in (c :: line, rest')
  end.

(** [line.startswith(b'#')] *)
Definition startswith_hash (line : list byte) : bool :=
  match line with
  | c :: _ => Byte.eqb c x23
  | [] => false
  end.

(** [float(n)] for an [int] below 2^63 (every count of this program is). *)
Definition float_of_int (n : Z) : float := PrimFloat.of_uint63 (Uint63.of_Z n).

(** [a / b], true division of two [int]s, for [b <> 0] (the only use is
    guarded by [total_samples > 0]). Both operands are far below 2^53, where
    CPython's correctly rounded quotient is the IEEE quotient of the two
    conversions. *)
Definition truediv (a b : Z) : float :=
  PrimFloat.div (float_of_int a) (float_of_int b).

End Py.

Import Py.

Notation "x <- m ;; k" := (Py.bind m (fun x => k))
  (at level 61, m at next level, right associativity).

(** ** Colour classification of one sampled pixel (lines 94-116) *)

Inductive category : Type :=
| Yellow        (* [yellow_count += 1] *)
| Grey          (* [grey_count += 1]: Mac grey, or white *)
| Black         (* [black_count += 1] *)
| Unclassified. (* no counter moves *)

(** The value of [is_yellow] after the two [if] statements of lines 97-104. *)
Definition is_yellow (r g b : Z) : bool :=
  let is_yellow := false in
  let is_yellow :=
    if (r >? 200) && (g >? 200) && (b <? 220) then
      if (b <? r - 20) || (b <? g - 20) then true else is_yellow
    else is_yellow in
  let is_yellow :=
    if (r >? 180) && (g >? 160) && (b <? 160) && (r >? b + 30) then true
    else is_yellow in
  is_yellow.

(** The [if is_yellow: ... elif ... elif ... elif ...] chain of lines 106-116. *)
Definition classify_pixel (r g b : Z) : category :=
  if is_yellow r g b then Yellow
  else if (Z.abs (r - g) <? 20) && (Z.abs (g - b) <? 20) && ((165 <? r) && (r <? 215))
       then Grey
  else if (r >? 230) && (g >? 230) && (b >? 230) then Grey
  else if (r <? 60) && (g <? 60) && (b <? 60) then Black
  else Unclassified.

(** The four counters of lines 83-86. *)
Record counts : Type := mkCounts {
  yellow_count : Z;
  grey_count : Z;
  black_count : Z;
  total_samples : Z
}.

Definition no_counts : counts := mkCounts 0 0 0 0.

(** One sampled pixel: [total_samples += 1], then the counter of its category. *)
Definition tally (k : category) (c : counts) : counts :=
  let t := total_samples c + 1 in
  match k with
  | Yellow => mkCounts (yellow_count c + 1) (grey_count c) (black_count c) t
  | Grey => mkCounts (yellow_count c) (grey_count c + 1) (black_count c) t
  | Black => mkCounts (yellow_count c) (grey_count c) (black_count c + 1) t
  | Unclassified => mkCounts (yellow_count c) (grey_count c) (black_count c) t
  end.

(** ** The sampling loop (lines 89-116) *)

(** [step = max(3, len(pixel_data) // 3000) * 3] *)
Definition step (pixel_data : list byte) : Z :=
  Z.max 3 (len pixel_data / 3000) * 3.

(** The indices visited: [range(0, len(pixel_data) - 2, step)]. *)
Definition sample_indices (pixel_data : list byte) : list Z :=
  Py.range 0 (len pixel_data - 2) (step pixel_data).

(** The loop body at index [i]: three indexed reads, then the tally. *)
Definition sample_at (pixel_data : list byte) (c : counts) (i : Z) : result counts :=
  r <- getitem pixel_data i ;;
  g <- getitem pixel_data (i + 1) ;;
  b <- getitem pixel_data (i + 2) ;;
  Ok (tally (classify_pixel r g b) c).

(** The [for] loop over a list of indices, from counters [c]. *)
Fixpoint sample_loop (pixel_data : list byte) (indices : list Z) (c : counts)
  : result counts :=
  match indices with
  | [] => Ok c
  | i :: rest => c' <- sample_at pixel_data c i ;; sample_loop pixel_data rest c'
  end.

Definition count_samples (pixel_data : list byte) : result counts :=
  sample_loop pixel_data (sample_indices pixel_data) no_counts.

(** ** Percentages (lines 118-122) *)

(** A classification sample: [(yellow_pct, grey_pct, black_pct)]. *)
Definition sample : Type := (float * float * float)%type.

Definition yellow_pct (s : sample) : float := fst (fst s).
Definition grey_pct (s : sample) : float := snd (fst s).
Definition black_pct (s : sample) : float := snd s.

(** [(count / total_samples) * 100] *)
Definition pct (count total : Z) : float :=
  PrimFloat.mul (truediv count total) 100%float.

(** The [return 0, 0, 0] of line 127 (the [int] 0 compares as the float 0). *)
Definition zero_sample : sample := (0%float, 0%float, 0%float).

(** [Some] of the tuple returned at line 122 when [total_samples > 0]; [None]
    when the [if] is not taken and control leaves the [try] block. *)
Definition percentages (c : counts) : option sample :=
  if total_samples c >? 0 then
    Some (pct (yellow_count c) (total_samples c),
          pct (grey_count c) (total_samples c),
          pct (black_count c) (total_samples c))
  else None.

(** Lines 83-122 on the bytes read at line 81. *)
Definition classify_try (pixel_data : list byte) : result (option sample) :=
  c <- count_samples pixel_data ;;
  Ok (percentages c).

(** ** Reading the PPM file (lines 62-81) and [analyze_screenshot] *)

(** The [while line.startswith(b'#'): line = f.readline()] loop of lines 70-71,
    unrolled at most [fuel] times. [skip_comments_stops] below shows that the
    fuel given by [read_ppm] is never used up. *)
Fixpoint skip_comments (fuel : nat) (line f : list byte) : list byte * list byte :=
  match fuel with
  | O => (line, f)
  | S fuel' =>
      if startswith_hash line then
        let '(line', f') := readline f in skip_comments fuel' line' f'
      else (line, f)
  end.

Section Analyze.

(** Lines 74-75 on the dimensions line:
    [dims = line.decode().strip().split()] and
    [width, height = int(dims[0]), int(dims[1])];
    [Raise] stands for the [UnicodeDecodeError], [IndexError] or [ValueError]
    these may raise. What follows holds whatever this function is;
    [ascii_dims] below describes it on lines made of ASCII bytes. *)
Variable parse_dims : list byte -> result (Z * Z).

(** The content of a file at a path: [None] when [open(ppm_path, 'rb')]
    raises (no such file, no permission). *)
Definition file : Type := option (list byte).

(** The dimensions line: the first line after the header line that does not
    start with [#], and the content left unread after it. *)
Definition dims_line (content : list byte) : list byte * list byte :=
  let '(header, f) := readline content in
  let '(line, f) := readline f in
  skip_comments (S (S (length f))) line f.

(** Lines 64-81: [(width, height, pixel_data)]. *)
Definition read_ppm (fl : file) : result (Z * Z * list byte) :=
  match fl with
  | None => Raise
  | Some content =>
      let '(line, f) := dims_line content in
      dims <- parse_dims line ;;
      let '(width, height) := dims in
      let '(maxval, f) := readline f in
      let pixel_data := f in
      Ok (width, height, pixel_data)
  end.

(** The body of the [try] block: [Ok (Some s)] when line 122 returns [s],
    [Ok None] when the block ends without returning, [Raise] when it raises. *)
Definition analyze_try (fl : file) : result (option sample) :=
  img <- read_ppm fl ;;
  let '(width, height, pixel_data) := img in
  classify_try pixel_data.

(** [analyze_screenshot(ppm_path)]: [except Exception: pass] and the final
    [return 0, 0, 0]. *)
Definition analyze_screenshot (fl : file) : sample :=
  match analyze_try fl with
  | Ok (Some s) => s
  | Ok None => zero_sample
  | Raise => zero_sample
  end.

End Analyze.

(** ** [parse_dims] on ASCII lines *)

(** Whitespace for [str.strip] and [str.split] among the ASCII characters:
    tab, newline, vertical tab, form feed, carriage return, the separators
    0x1c-0x1f, and space. *)
Definition is_space (c : byte) : bool :=
  let n := Z.of_N (Byte.to_N c) in
  ((9 <=? n) && (n <=? 13)) || ((28 <=? n) && (n <=? 32)).

(** [s.split()]: the maximal runs of non-whitespace ([cur] is the run being
    read, reversed). The [strip()] before it changes nothing. *)
Fixpoint split_ws (cur : list byte) (s : list byte) : list (list byte) :=
  match s with
  | [] => match cur with [] => [] | _ => [rev cur] end
  | c :: s' =>
      if is_space c then
        match cur with
        | [] => split_ws [] s'
        | _ => rev cur :: split_ws [] s'
        end
      else split_ws (c :: cur) s'
  end.

Definition digit_val (c : byte) : option Z :=
  let n := Z.of_N (Byte.to_N c) in
  if (48 <=? n) && (n <=? 57) then Some (n - 48) else None.

(** The digits of a decimal [int] literal: at least one digit, single
    underscores allowed between digits only. [after_digit] says whether the
    previous character was a digit. *)
Fixpoint int_digits (after_digit : bool) (acc : Z) (s : list byte) : result Z :=
  match s with
  | [] => if after_digit then Ok acc else Raise
  | c :: s' =>
      match digit_val c with
      | Some d => int_digits true (10 * acc + d) s'
      | None =>
          if Byte.eqb c x5f && after_digit then int_digits false acc s'
          else Raise
      end
  end.

(** [int(tok)] for a token without whitespace: an optional sign, then digits. *)
Definition int_of_token (tok : list byte) : result Z :=
  match tok with
  | c :: s' =>
      if Byte.eqb c x2b then int_digits false 0 s'
      else if Byte.eqb c x2d then n <- int_digits false 0 s' ;; Ok (- n)
      else int_digits false 0 tok
  | [] => Raise
  end.

(** [parse_dims] for a line of ASCII bytes. A line holding a byte above 0x7f
    is outside what this function describes (there the answer depends on
    UTF-8 decoding and on the Unicode tables of digits and spaces); it is
    only ever applied to ASCII lines below. *)
Definition ascii_dims (line : list byte) : result (Z * Z) :=
  if existsb (fun c => 128 <=? Z.of_N (Byte.to_N c)) line then Raise
  else
    match split_ws [] line with
    | w :: h :: _ =>
        width <- int_of_token w ;;
        height <- int_of_token h ;;
        Ok (width, height)
    | _ => Raise
    end.

(** ** The polling loop [monitor_vnc] (lines 129-205) *)

(** The four places where [monitor_vnc] calls [self.schedule_close()], named
    after the message printed just before. *)
Inductive close_reason : Type :=
| YellowPassed      (* line 173: "Yellow screen passed - Mac OS booting!" *)
| GreyScreen        (* line 181: "Mac grey screen detected!" *)
| NoYellowTimeout   (* line 188: "Timeout waiting for yellow - closing splash" *)
| MonitorTimeout.   (* line 205: "Monitor timeout - closing splash" *)

(** The detector's terminal decision: a call inside the loop is "dismiss now",
    the call after the loop is the timeout. *)
Inductive decision : Type :=
| DismissNow
| DismissOnTimeout.

Definition decision_of (why : close_reason) : decision :=
  match why with
  | YellowPassed | GreyScreen | NoYellowTimeout => DismissNow
  | MonitorTimeout => DismissOnTimeout
  end.

(** What the thread does that is visible outside it. *)
Inductive event : Type :=
| Screendump (attempt : Z)          (* [subprocess.run(['socat', ...])] *)
| Sleep (ms : Z)                    (* [time.sleep] *)
| RemoveScreenshot                  (* [os.remove(screenshot_path)] *)
| ScheduleClose (why : close_reason). (* [self.schedule_close()] *)

(** What one pass through the [try] block of lines 141-198 meets. *)
Inductive attempt : Type :=
| CaptureError            (* [subprocess.run] raises (timeout, no [socat]) *)
| NoScreenshot            (* [os.path.exists(screenshot_path)] is false *)
| Analyzed (s : sample).  (* the tuple returned by [analyze_screenshot] *)

(** The local variables of lines 136-138. *)
Record locals : Type := mkLocals {
  check_count : Z;
  yellow_seen : bool;
  post_yellow_frames : Z
}.

Definition initial_locals : locals := mkLocals 0 false 0.

(** The outcome of one pass: the locals, the events, and [Some why] when the
    pass ended in [self.schedule_close(); return]. *)
Definition pass : Type := (locals * list event * option close_reason)%type.

(** Lines 176-195: the grey test, the no-yellow safety test, the cleanup. *)
Definition grey_and_safety (l : locals) (grey_pct : float) : pass :=
  if (50 <? grey_pct)%float then
    (l, [Sleep 500; ScheduleClose GreyScreen], Some GreyScreen)
  else if (check_count l >? 40) && negb (yellow_seen l) then
    (l, [ScheduleClose NoYellowTimeout], Some NoYellowTimeout)
  else (l, [RemoveScreenshot], None).

(** Lines 160-195 on the sample [(yellow_pct, grey_pct, black_pct)]. *)
Definition transitions (l : locals) (s : sample) : pass :=
  let '(yellow_pct, grey_pct, black_pct) := s in
  if (20 <? yellow_pct)%float then
    let l := mkLocals (check_count l) true 0 in
    grey_and_safety l grey_pct
  else if yellow_seen l && (yellow_pct <? 10)%float then
    let l := mkLocals (check_count l) (yellow_seen l) (post_yellow_frames l + 1) in
    if post_yellow_frames l >=? 2 then
      (l, [Sleep 300; ScheduleClose YellowPassed], Some YellowPassed)
    else grey_and_safety l grey_pct
  else grey_and_safety l grey_pct.

(** Lines 141-198: one pass through the [try] block. *)
Definition attempt_body (l : locals) (a : attempt) : pass :=
  match a with
  | CaptureError => (l, [Screendump (check_count l)], None)
  | NoScreenshot => (l, [Screendump (check_count l); Sleep 300], None)
  | Analyzed s =>
      let '(l', evs, ret) := transitions l s in
      (l', Screendump (check_count l) :: Sleep 300 :: evs, ret)
  end.

(** Lines 200-201: [check_count += 1]. *)
Definition next_attempt (l : locals) : locals :=
  mkLocals (check_count l + 1) (yellow_seen l) (post_yellow_frames l).

(** The [while self.running and check_count < 80] loop and the call that
    follows it. [is_running k] is the value of [self.running] read by the loop
    test when [check_count = k]; [world k] is what pass [k] meets. Each
    iteration uses one unit of [fuel]; [monitor_vnc] gives 81, which is enough
    for the 80 iterations and the final test ([monitor_vnc_decides]). *)
Fixpoint monitor_loop (fuel : nat) (is_running : Z -> bool) (world : Z -> attempt)
    (l : locals) : list event :=
  match fuel with
  | O => []
  | S fuel' =>
      if is_running (check_count l) && (check_count l <? 80) then
        let '(l', evs, ret) := attempt_body l (world (check_count l)) in
        match ret with
        | Some _ => evs
        | None =>
            evs ++ Sleep 250 :: monitor_loop fuel' is_running world (next_attempt l')
        end
      else [ScheduleClose MonitorTimeout]
  end.

Definition monitor_vnc (is_running : Z -> bool) (world : Z -> attempt) : list event :=
  Sleep 2000 :: monitor_loop 81 is_running world initial_locals.

(** The same loop fed from screenshot files: what pass [k] meets is a capture
    error, no file, or a file whose analysis is the sample. *)
Inductive capture : Type :=
| CaptureFailed
| NoFile
| Screenshot (fl : file).

Definition observe (parse_dims : list byte -> result (Z * Z)) (c : capture) : attempt :=
  match c with
  | CaptureFailed => CaptureError
  | NoFile => NoScreenshot
  | Screenshot fl => Analyzed (analyze_screenshot parse_dims fl)
  end.

(** ** Reading a trace *)

Definition is_close (e : event) : bool :=
  match e with ScheduleClose _ => true | _ => false end.

Definition is_screendump (e : event) : bool :=
  match e with Screendump _ => true | _ => false end.

(** The decisions of a trace, in order. *)
Definition decisions (t : list event) : list decision :=
  flat_map (fun e => match e with ScheduleClose why => [decision_of why] | _ => [] end) t.

(** The number of capture attempts in a trace. *)
Definition captures (t : list event) : nat := length (filter is_screendump t).

(** The loop fed a list of samples: sample [k] at pass [k]; past the list the
    passes meet no screenshot. *)
Definition feed (samples : list sample) (k : Z) : attempt :=
  if k <? 0 then NoScreenshot
  else match nth_error samples (Z.to_nat k) with
       | Some s => Analyzed s
       | None => NoScreenshot
       end.

Definition always_running (k : Z) : bool := true.

(** The first [n] passes of the loop from locals [l], without the events: the
    locals reached, and [Some why] if one of these passes called
    [schedule_close] (the passes after it do not run). *)
Fixpoint run_passes (n : nat) (world : Z -> attempt) (l : locals)
  : locals * option close_reason :=
  match n with
  | O => (l, None)
  | S n' =>
      let '(l', _, ret) := attempt_body l (world (check_count l)) in
      match ret with
      | Some why => (l', Some why)
      | None => run_passes n' world (next_attempt l')
      end
  end.

(** A trace that ends in its only call of [schedule_close], made for the
    reason [why] after [n] capture attempts. *)
Definition closes_after (t : list event) (why : close_reason) (n : nat) : Prop :=
  exists pre,
    t = pre ++ [ScheduleClose why] /\ existsb is_close pre = false /\ captures pre = n.

(** ** The overlay side: [keep_on_top], [schedule_close], [close] (lines 49-58, 207-220) *)

(** The callbacks handed to [self.root.after]. *)
Inductive callback : Type :=
| KeepOnTop
| Close.

(** The fields of the [SmartSplash] object that the three methods touch.
    [timers] lists the [(ms, callback)] pairs passed to [self.root.after],
    oldest first; [teardowns] counts the executions of the body of [close];
    [exit_status] is [Some n] once [sys.exit(n)] has been called. *)
Record splash : Type := mkSplash {
  running : bool;
  lift_count : Z;
  timers : list (Z * callback);
  teardowns : nat;
  exit_status : option Z
}.

(** The object when [monitor_vnc] starts: [__init__] has called
    [keep_on_top] once and armed the 20 s safety timer. *)
Definition started : splash :=
  mkSplash true 1 [(100, KeepOnTop); (20000, Close)] 0 None.

(** [self.root.after(ms, cb)] *)
Definition after (ms : Z) (cb : callback) (sp : splash) : splash :=
  mkSplash (running sp) (lift_count sp) (timers sp ++ [(ms, cb)])
           (teardowns sp) (exit_status sp).

(** Lines 49-58. *)
Definition keep_on_top (sp : splash) : splash :=
  if running sp && (lift_count sp <? 100) then
    after 100 KeepOnTop
      (mkSplash (running sp) (lift_count sp + 1) (timers sp)
                (teardowns sp) (exit_status sp))
  else sp.

(** Lines 207-210. *)
Definition schedule_close (sp : splash) : splash :=
  if running sp then after 100 Close sp else sp.

(** Lines 212-220: [self.running = False], the guarded [quit] and [destroy],
    then [sys.exit(0)]. *)
Definition close (sp : splash) : splash :=
  mkSplash false (lift_count sp) (timers sp) (S (teardowns sp)) (Some 0).

(** What can happen to the object: the monitor thread calls
    [schedule_close] (it may do so at any time, the thread is never joined), or
    the main thread runs a callback (a timer that fires, or [close] from a
    signal handler). [sys.exit] ends the process, so the main thread runs
    nothing once [exit_status] is set. *)
Inductive stimulus : Type :=
| Notify
| Fire (cb : callback).

Definition react (sp : splash) (st : stimulus) : splash :=
  match st with
  | Notify => schedule_close sp
  | Fire cb =>
      match exit_status sp with
      | Some _ => sp
      | None =>
          match cb with
          | KeepOnTop => keep_on_top sp
          | Close => close sp
          end
      end
  end.

(** ** Auxiliary definitions for the statements below *)

(** Counters as the loop keeps them: none negative, and the three colour
    counters together never ahead of [total_samples]. *)
Definition counts_ok (c : counts) : Prop :=
  0 <= yellow_count c /\ 0 <= grey_count c /\ 0 <= black_count c /\
  yellow_count c + grey_count c + black_count c <= total_samples c.

(** [p z && p (z+1) && ... && p (z+n-1)] *)
Fixpoint forall_from (n : nat) (z : Z) (p : Z -> bool) : bool :=
  match n with
  | O => true
  | S n' => p z && forall_from n' (z + 1) p
  end.

(** For a total of [t] samples: [t] out of [t] is exactly 100.0, 0 out of [t]
    is exactly 0.0, and every [c] out of [t] lies between 0.0 and 100.0. *)
Definition pct_row_ok (t : Z) : bool :=
  PrimFloat.Leibniz.eqb (pct t t) 100%float &&
  PrimFloat.Leibniz.eqb (pct 0 t) 0%float &&
  forall_from (S (Z.to_nat t)) 0
              (fun c => let p := pct c t in (0 <=? p)%float && (p <=? 100)%float).

(** The pixel data of an image of [n] pixels, all of colour [(r, g, b)]. *)
Definition uniform (r g b : byte) (n : nat) : list byte :=
  concat (repeat [r; g; b] n).

(** The value of an indexed byte. *)
Definition byte_val (c : byte) : Z := Z.of_N (Byte.to_N c).

(** [m] samples of category [k] tallied one after the other. *)
Definition tally_n (k : category) (m : nat) (c : counts) : counts :=
  Nat.iter m (tally k) c.

(** A percentage between 0.0 and 100.0, as Python's [0 <= x <= 100]. *)
Definition within_0_100 (x : float) : Prop :=
  (0 <=? x)%float = true /\ (x <=? 100)%float = true.

(** The spec's classification rules for a pixel [(r, g, b)]. *)
Definition yellow_rule (r g b : Z) : Prop :=
  (r > 200 /\ g > 200 /\ b < 220 /\ (b < r - 20 \/ b < g - 20)) \/
  (r > 180 /\ g > 160 /\ b < 160 /\ r > b + 30).

Definition grey_rule (r g b : Z) : Prop :=
  (Z.abs (r - g) < 20 /\ Z.abs (g - b) < 20 /\ 165 < r < 215) \/
  (r > 230 /\ g > 230 /\ b > 230).

Definition black_rule (r g b : Z) : Prop := r < 60 /\ g < 60 /\ b < 60.

(** ** Sample sequences used as concrete inputs *)

Definition yellow_80 : sample := (80, 0, 0)%float.
Definition yellow_15 : sample := (15, 0, 0)%float.
Definition yellow_5 : sample := (5, 0, 0)%float.

(** Three frames of firmware yellow, then two frames without it. *)
Definition firmware_then_clear : list sample :=
  [yellow_80; yellow_80; yellow_80; yellow_5; yellow_5].

(** Yellow, a clear frame, a frame at 15% yellow, a clear frame. *)
Definition clear_frames_apart : list sample :=
  [yellow_80; yellow_5; yellow_15; yellow_5].

(** Every pass analyses a screenshot without any signal. *)
Definition silence (k : Z) : attempt := Analyzed zero_sample.

(** Every pass fails to capture. *)
Definition every_capture_fails (k : Z) : attempt := CaptureError.

(** A pass that skips lines 154-195: the capture raised or left no file. *)
Definition skipped (a : attempt) : Prop := a = CaptureError \/ a = NoScreenshot.

(** ** Files used as concrete inputs *)

(** A PPM file: the header [P6], the dimensions line, [255], the pixels. *)
Definition ppm (dims pixel_data : list byte) : list byte :=
  [x50; x36; x0a] ++ dims ++ [x0a; x32; x35; x35; x0a] ++ pixel_data.

(** An 11 x 3 image: six light-yellow pixels (255,255,150), then 27 Mac-grey
    pixels (189,189,189). The stride is 9 bytes, every third pixel is
    sampled: 2 yellow samples and 9 grey ones. *)
Definition two_of_eleven : list byte :=
  ppm [x31; x31; x20; x33] (uniform xff xff x96 6 ++ uniform xbd xbd xbd 27).

(** A file whose header announces 2 x 2 pixels (12 bytes) and that ends after
    one pixel (3 bytes). *)
Definition truncated : list byte := ppm [x32; x20; x32] [xff; xff; x96].

(** A header announcing 2 x 2 with no pixel data behind it. *)
Definition no_pixels : list byte := ppm [x32; x20; x32] [].

(** A dimensions line with one number only: [dims[1]] raises [IndexError]. *)
Definition one_dimension : list byte := ppm [x32] [xff; xff; x96].

(** The same three bytes of pixel data under a header announcing 7 x 9. *)
Definition oversold : list byte := ppm [x37; x20; x39] [xff; xff; x96].


(** ** Pixels *)

(** One pixel of a raster image: its red, green and blue bytes. *)
Definition pixel : Type := (byte * byte * byte)%type.

(** The pixel data of a list of pixels: three bytes per pixel, in order. *)
Definition raster (pixels : list pixel) : list byte :=
  flat_map (fun p : pixel => let '(r, g, b) := p in [r; g; b]) pixels.

(** The category of a pixel. *)
Definition pixel_category (p : pixel) : category :=
  let '(r, g, b) := p in classify_pixel (byte_val r) (byte_val g) (byte_val b).

Definition category_eqb (k k' : category) : bool :=
  match k, k' with
  | Yellow, Yellow | Grey, Grey | Black, Black | Unclassified, Unclassified => true
  | _, _ => false
  end.

(** The number of pixels of category [k] in a list of pixels. *)
Definition count_of (k : category) (ps : list pixel) : Z :=
  len (filter (fun p => category_eqb (pixel_category p) k) ps).

(** The stride of the sampling loop counted in pixels. *)
Definition pixel_stride (pixels : list pixel) : Z :=
  Z.max 3 (len (raster pixels) / 3000).

(** The pixels at the positions [range(0, len(pixels), pixel_stride)]. *)
Definition sampled_pixels (pixels : list pixel) : list pixel :=
  map (fun j => nth (Z.to_nat j) pixels (x00, x00, x00))
      (Py.range 0 (len pixels) (pixel_stride pixels)).


(** ** Well-formed PPM files *)









(** ** Reading more of a trace *)

(** The time a trace spends in [time.sleep], in milliseconds. *)
Definition slept (t : list event) : Z :=
  fold_right (fun e total => match e with Sleep ms => ms + total | _ => total end) 0 t.

(** What holds of the locals at the head of every pass of a run:
    [post_yellow_frames] is 0 or 1, it is 1 only after yellow has been seen
    and two passes have gone by, and yellow has been seen only after a pass. *)
Definition locals_ok (l : locals) : Prop :=
  0 <= check_count l /\ 0 <= post_yellow_frames l <= 1 /\
  (post_yellow_frames l = 1 -> yellow_seen l = true /\ 2 <= check_count l) /\
  (yellow_seen l = true -> 1 <= check_count l).

(** * Properties *)

(** ** The sampled indices *)

Lemma step_pos (pixel_data : list byte) : 9 <= step pixel_data.
Proof. unfold step. lia. Qed.

Lemma step_multiple_of_3 (pixel_data : list byte) :
  step pixel_data = 3 * Z.max 3 (len pixel_data / 3000).
Proof. unfold step. lia. Qed.

Lemma range_elements (start stop stride i : Z) :
  0 < stride ->
  In i (Py.range start stop stride) ->
  exists k, 0 <= k < range_len start stop stride /\ i = start + k * stride.
Proof.
  intros Hs Hin. unfold Py.range in Hin.
  apply in_map_iff in Hin. destruct Hin as [k [Hi Hk]].
  apply in_seq in Hk. exists (Z.of_nat k). split; [lia | now subst].
Qed.

Lemma range_len_last (stop stride k : Z) :
  0 < stride -> 0 <= k < range_len 0 stop stride -> k * stride < stop.
Proof.
  intros Hs [Hk0 Hk]. unfold range_len in Hk.
  destruct (stop <=? 0) eqn:E; [lia |].
  apply Z.leb_gt in E.
  replace (stop - 0 + stride - 1) with (stop + stride - 1) in Hk by lia.
  pose proof (Z.mul_div_le (stop + stride - 1) stride Hs) as Hq.
  nia.
Qed.

Lemma sample_indices_spec (pixel_data : list byte) (i : Z) :
  In i (sample_indices pixel_data) ->
  0 <= i /\ i + 2 < len pixel_data /\ exists j, i = 3 * j /\ 0 <= j.
Proof.
  intros Hin. unfold sample_indices in Hin.
  pose proof (step_pos pixel_data) as Hp.
  apply range_elements in Hin; [| lia].
  destruct Hin as [k [Hk ->]].
  pose proof (range_len_last (len pixel_data - 2) (step pixel_data) k ltac:(lia) Hk) as Hlt.
  repeat split; try nia.
  exists (k * Z.max 3 (len pixel_data / 3000)). rewrite step_multiple_of_3. nia.
Qed.

(** [range] never yields more than 1333 indices: below 12000 bytes the stride
    is 9, above it the stride grows with the length. *)
Lemma sample_count_bound (pixel_data : list byte) :
  (length (sample_indices pixel_data) <= 1333)%nat.
Proof.
  unfold sample_indices, Py.range. rewrite length_map, length_seq.
  unfold range_len.
  destruct (len pixel_data - 2 <=? 0) eqn:E; [simpl; lia |].
  apply Z.leb_gt in E.
  enough (H : (len pixel_data - 2 - 0 + step pixel_data - 1) / step pixel_data <= 1333)
    by lia.
  pose proof (step_pos pixel_data) as Hp.
  apply Z.lt_succ_r. apply Z.div_lt_upper_bound; [lia |].
  unfold step in *.
  pose proof (Z.mul_div_le (len pixel_data) 3000 ltac:(lia)) as H1.
  pose proof (Z.mod_pos_bound (len pixel_data) 3000 ltac:(lia)) as H2.
  pose proof (Z.div_mod (len pixel_data) 3000 ltac:(lia)) as H3.
  destruct (Z.max_spec 3 (len pixel_data / 3000)) as [[Hm ->] | [Hm ->]]; lia.
Qed.

Lemma sample_count_pos (pixel_data : list byte) :
  2 < len pixel_data -> (1 <= length (sample_indices pixel_data))%nat.
Proof.
  intros Hl. unfold sample_indices, Py.range. rewrite length_map, length_seq.
  unfold range_len.
  destruct (len pixel_data - 2 <=? 0) eqn:E; [apply Z.leb_le in E; lia |].
  pose proof (step_pos pixel_data) as Hp.
  enough (1 <= (len pixel_data - 2 - 0 + step pixel_data - 1) / step pixel_data) by lia.
  apply Z.div_le_lower_bound; lia.
Qed.

Lemma sample_count_zero (pixel_data : list byte) :
  len pixel_data <= 2 -> sample_indices pixel_data = [].
Proof.
  intros Hl. unfold sample_indices, Py.range, range_len.
  destruct (len pixel_data - 2 <=? 0) eqn:E; [reflexivity |].
  apply Z.leb_gt in E. lia.
Qed.

(** ** Indexed reads *)

Lemma getitem_in_range (data : list byte) (i : Z) :
  0 <= i < len data -> exists v, getitem data i = Ok v /\ 0 <= v <= 255.
Proof.
  intros [H0 H1]. unfold getitem.
  destruct (i <? 0) eqn:E; [apply Z.ltb_lt in E; lia |]. rewrite E.
  destruct (nth_error data (Z.to_nat i)) as [b |] eqn:En.
  - exists (Z.of_N (Byte.to_N b)). split; [reflexivity |].
    pose proof (Byte.to_N_bounded b). lia.
  - apply nth_error_None in En. unfold len in H1. lia.
Qed.

(** ** The counters *)

Lemma tally_ok (k : category) (c : counts) :
  counts_ok c ->
  counts_ok (tally k c) /\ total_samples (tally k c) = total_samples c + 1.
Proof. unfold counts_ok. destruct k; simpl; lia. Qed.

Lemma sample_loop_total (pixel_data : list byte) (indices : list Z) :
  forall c,
    (forall i, In i indices -> 0 <= i /\ i + 2 < len pixel_data) ->
    counts_ok c ->
    exists c', sample_loop pixel_data indices c = Ok c' /\ counts_ok c' /\
               total_samples c' = total_samples c + Z.of_nat (length indices).
Proof.
  induction indices as [| i rest IH]; intros c Hidx Hc.
  - exists c. simpl. repeat split; try apply Hc; lia.
  - destruct (Hidx i (or_introl eq_refl)) as [Hi0 Hi2].
    destruct (getitem_in_range pixel_data i ltac:(lia)) as [r [Hr _]].
    destruct (getitem_in_range pixel_data (i + 1) ltac:(lia)) as [g [Hg _]].
    destruct (getitem_in_range pixel_data (i + 2) ltac:(lia)) as [b [Hb _]].
    destruct (tally_ok (classify_pixel r g b) c Hc) as [Hok Htot].
    destruct (IH (tally (classify_pixel r g b) c)) as [c' [Hrun [Hc' Ht']]];
      [intros j Hj; apply Hidx; now right | exact Hok |].
    exists c'. cbn [sample_loop]. unfold sample_at. rewrite Hr, Hg, Hb. cbn [bind].
    repeat split; try apply Hc'; [exact Hrun |].
    rewrite Ht', Htot. cbn [length]. lia.
Qed.

Lemma no_counts_ok : counts_ok no_counts.
Proof. unfold counts_ok, no_counts. simpl. lia. Qed.

(** The sampling loop never raises: it ends with consistent counters, one
    sample per index. *)
Lemma count_samples_total (pixel_data : list byte) :
  exists c, count_samples pixel_data = Ok c /\ counts_ok c /\
            total_samples c = Z.of_nat (length (sample_indices pixel_data)).
Proof.
  destruct (sample_loop_total pixel_data (sample_indices pixel_data) no_counts)
    as [c [H1 [H2 H3]]].
  - intros i Hi. apply sample_indices_spec in Hi. lia.
  - apply no_counts_ok.
  - exists c. repeat split; try apply H2; [exact H1 |]. rewrite H3. reflexivity.
Qed.

(** ** Percentages in binary64 *)

Lemma forall_from_spec (n : nat) (p : Z -> bool) :
  forall z : Z,
    forall_from n z p = true -> forall k, z <= k < z + Z.of_nat n -> p k = true.
Proof.
  induction n as [| n IH]; intros z H k Hk; [lia |].
  cbn [forall_from] in H. apply andb_prop in H. destruct H as [Hz Hrest].
  destruct (Z.eq_dec k z) as [-> | Hne]; [exact Hz |].
  apply (IH (z + 1) Hrest). lia.
Qed.

(** [pct_row_ok] for every total the sampling loop can reach, by evaluation. *)
Lemma pct_table : forall_from 1333 1 pct_row_ok = true.
Proof. vm_compute. reflexivity. Qed.

Lemma pct_row (t : Z) : 1 <= t <= 1333 -> pct_row_ok t = true.
Proof.
  intros H. exact (forall_from_spec 1333 pct_row_ok 1 pct_table t ltac:(lia)).
Qed.

Lemma pct_all (t : Z) : 1 <= t <= 1333 -> pct t t = 100%float.
Proof.
  intros H. pose proof (pct_row t H) as R. unfold pct_row_ok in R.
  apply andb_prop in R. destruct R as [R _].
  apply andb_prop in R. destruct R as [R _].
  now apply FloatAxioms.Leibniz.eqb_spec.
Qed.

Lemma pct_none (t : Z) : 1 <= t <= 1333 -> pct 0 t = 0%float.
Proof.
  intros H. pose proof (pct_row t H) as R. unfold pct_row_ok in R.
  apply andb_prop in R. destruct R as [R _].
  apply andb_prop in R. destruct R as [_ R].
  now apply FloatAxioms.Leibniz.eqb_spec.
Qed.

Lemma pct_bounds (c t : Z) :
  0 <= c <= t -> 1 <= t <= 1333 ->
  (0 <=? pct c t)%float = true /\ (pct c t <=? 100)%float = true.
Proof.
  intros Hc H. pose proof (pct_row t H) as R. unfold pct_row_ok in R.
  apply andb_prop in R. destruct R as [_ R].
  pose proof (forall_from_spec _ _ _ R c ltac:(lia)) as Hp. cbv zeta in Hp.
  now apply andb_prop in Hp.
Qed.

(** ** The pixel rules *)

Ltac split_comparisons :=
  repeat (match goal with
          | |- context [Z.gtb ?a ?b] => rewrite (Z.gtb_ltb a b)
          | |- context [Z.ltb ?a ?b] => destruct (Z.ltb_spec a b)
          end; cbn [andb orb negb]).

Lemma is_yellow_spec (r g b : Z) : is_yellow r g b = true <-> yellow_rule r g b.
Proof.
  unfold is_yellow, yellow_rule. split_comparisons;
    split; intro; try discriminate; try reflexivity; lia.
Qed.

Lemma classify_pixel_spec (r g b : Z) :
  (classify_pixel r g b = Yellow <-> yellow_rule r g b) /\
  (classify_pixel r g b = Grey <-> ~ yellow_rule r g b /\ grey_rule r g b) /\
  (classify_pixel r g b = Black <->
     ~ yellow_rule r g b /\ ~ grey_rule r g b /\ black_rule r g b) /\
  (classify_pixel r g b = Unclassified <->
     ~ yellow_rule r g b /\ ~ grey_rule r g b /\ ~ black_rule r g b).
Proof.
  pose proof (is_yellow_spec r g b) as HY.
  unfold classify_pixel.
  destruct (is_yellow r g b).
  - assert (yellow_rule r g b) by now apply HY.
    repeat split; intros; try discriminate; try tauto.
  - assert (~ yellow_rule r g b) by (intro C; apply HY in C; discriminate).
    unfold grey_rule, black_rule. split_comparisons;
      repeat split; intros; try discriminate; try reflexivity; try assumption;
      try lia; try tauto.
Qed.

(** ** Uniform images *)

Lemma uniform_length (r g b : byte) (n : nat) :
  len (uniform r g b n) = 3 * Z.of_nat n.
Proof.
  unfold len, uniform. induction n as [| n IH]; [reflexivity |].
  cbn [repeat concat app length]. lia.
Qed.

Lemma uniform_nth (r g b : byte) (n k : nat) :
  (k < n)%nat ->
  nth_error (uniform r g b n) (3 * k) = Some r /\
  nth_error (uniform r g b n) (3 * k + 1) = Some g /\
  nth_error (uniform r g b n) (3 * k + 2) = Some b.
Proof.
  revert k. induction n as [| n IH]; intros k Hk; [lia |].
  destruct k as [| k].
  - repeat split; reflexivity.
  - replace (3 * S k)%nat with (S (S (S (3 * k)))) by lia.
    unfold uniform in *. cbn [repeat concat app plus nth_error].
    apply IH. lia.
Qed.

Lemma getitem_nonneg (data : list byte) (i : Z) :
  0 <= i ->
  getitem data i = match nth_error data (Z.to_nat i) with
                   | Some c => Ok (byte_val c)
                   | None => Raise
                   end.
Proof.
  intros Hi. unfold getitem.
  destruct (i <? 0) eqn:E; [apply Z.ltb_lt in E; lia |]. rewrite E. reflexivity.
Qed.

Lemma getitem_uniform (r g b : byte) (n : nat) (j : Z) :
  0 <= j < Z.of_nat n ->
  getitem (uniform r g b n) (3 * j) = Ok (byte_val r) /\
  getitem (uniform r g b n) (3 * j + 1) = Ok (byte_val g) /\
  getitem (uniform r g b n) (3 * j + 2) = Ok (byte_val b).
Proof.
  intros Hj.
  destruct (uniform_nth r g b n (Z.to_nat j) ltac:(lia)) as [Hr [Hg Hb]].
  rewrite !getitem_nonneg by lia.
  replace (Z.to_nat (3 * j)) with (3 * Z.to_nat j)%nat by lia.
  replace (Z.to_nat (3 * j + 1)) with (3 * Z.to_nat j + 1)%nat by lia.
  replace (Z.to_nat (3 * j + 2)) with (3 * Z.to_nat j + 2)%nat by lia.
  rewrite Hr, Hg, Hb. repeat split; reflexivity.
Qed.

Lemma sample_loop_uniform (r g b : byte) (n : nat) (indices : list Z) :
  forall c,
    (forall i, In i indices -> exists j, i = 3 * j /\ 0 <= j < Z.of_nat n) ->
    sample_loop (uniform r g b n) indices c =
    Ok (tally_n (classify_pixel (byte_val r) (byte_val g) (byte_val b))
                (length indices) c).
Proof.
  induction indices as [| i rest IH]; intros c Hidx; [reflexivity |].
  destruct (Hidx i (or_introl eq_refl)) as [j [-> Hj]].
  destruct (getitem_uniform r g b n j Hj) as [Hr [Hg Hb]].
  cbn [sample_loop]. unfold sample_at. rewrite Hr, Hg, Hb. cbn [bind].
  rewrite IH by (intros i Hi; apply Hidx; now right).
  unfold tally_n. cbn [length]. f_equal.
  now rewrite Nat.iter_succ_r.
Qed.

Lemma count_samples_uniform (r g b : byte) (n : nat) :
  count_samples (uniform r g b n) =
  Ok (tally_n (classify_pixel (byte_val r) (byte_val g) (byte_val b))
              (length (sample_indices (uniform r g b n))) no_counts).
Proof.
  unfold count_samples. apply sample_loop_uniform.
  intros i Hi. apply sample_indices_spec in Hi.
  destruct Hi as [H0 [H2 [j [-> Hj]]]]. exists j. split; [reflexivity |].
  rewrite uniform_length in H2. lia.
Qed.

Lemma tally_n_counts (k : category) (m : nat) :
  tally_n k m no_counts =
  match k with
  | Yellow => mkCounts (Z.of_nat m) 0 0 (Z.of_nat m)
  | Grey => mkCounts 0 (Z.of_nat m) 0 (Z.of_nat m)
  | Black => mkCounts 0 0 (Z.of_nat m) (Z.of_nat m)
  | Unclassified => mkCounts 0 0 0 (Z.of_nat m)
  end.
Proof.
  unfold tally_n. induction m as [| m IH]; [now destruct k |].
  rewrite Nat.iter_succ, IH.
  destruct k; unfold tally; cbn [yellow_count grey_count black_count total_samples];
    f_equal; lia.
Qed.

(** The percentages of an image of [n >= 1] pixels of one colour: 100.0 for
    the colour's category and 0.0 for the other two. *)
Lemma classify_uniform (r g b : byte) (n : nat) :
  classify_try (uniform r g b (S n)) =
  Ok (Some match classify_pixel (byte_val r) (byte_val g) (byte_val b) with
           | Yellow => (100, 0, 0)
           | Grey => (0, 100, 0)
           | Black => (0, 0, 100)
           | Unclassified => (0, 0, 0)
           end%float).
Proof.
  unfold classify_try. rewrite count_samples_uniform. cbn [bind].
  pose proof (sample_count_bound (uniform r g b (S n))) as Hhi.
  pose proof (sample_count_pos (uniform r g b (S n))) as Hlo.
  rewrite uniform_length in Hlo. specialize (Hlo ltac:(lia)).
  set (m := length (sample_indices (uniform r g b (S n)))) in *.
  rewrite tally_n_counts.
  assert (Hm : 1 <= Z.of_nat m <= 1333) by lia.
  pose proof (pct_all _ Hm) as Hall. pose proof (pct_none _ Hm) as Hnone.
  unfold percentages.
  destruct (classify_pixel (byte_val r) (byte_val g) (byte_val b));
    cbn [yellow_count grey_count black_count total_samples];
    (replace (Z.of_nat m >? 0) with true by (symmetry; apply Z.gtb_lt; lia));
    rewrite ?Hall, ?Hnone; reflexivity.
Qed.

(** C6. Every sampled pixel gets the first category whose rule it meets, in
    the order yellow/tan, grey-or-white, black, else unclassified; and an
    image of one colour, whatever its size (at least one pixel), yields
    exactly 100.0 for yellow at (255,255,150), for grey at (189,189,189), for
    black at (0,0,0), and 0.0 three times at (100,50,200). *)
Theorem classifier_first_match_wins :
  (forall r g b : Z,
      (classify_pixel r g b = Yellow <-> yellow_rule r g b) /\
      (classify_pixel r g b = Grey <-> ~ yellow_rule r g b /\ grey_rule r g b) /\
      (classify_pixel r g b = Black <->
         ~ yellow_rule r g b /\ ~ grey_rule r g b /\ black_rule r g b) /\
      (classify_pixel r g b = Unclassified <->
         ~ yellow_rule r g b /\ ~ grey_rule r g b /\ ~ black_rule r g b)) /\
  (forall n : nat,
      classify_try (uniform xff xff x96 (S n)) = Ok (Some (100, 0, 0)%float) /\
      classify_try (uniform xbd xbd xbd (S n)) = Ok (Some (0, 100, 0)%float) /\
      classify_try (uniform x00 x00 x00 (S n)) = Ok (Some (0, 0, 100)%float) /\
      classify_try (uniform x64 x32 xc8 (S n)) = Ok (Some (0, 0, 0)%float)).
Proof.
  split; [exact classify_pixel_spec |].
  intros n. repeat split; rewrite classify_uniform; reflexivity.
Qed.

(** ** The header *)

Lemma readline_length (f : list byte) :
  (length (snd (readline f)) <= length f)%nat /\
  (f <> [] -> (length (snd (readline f)) < length f)%nat).
Proof.
  induction f as [| c rest IH]; [split; [simpl; lia | congruence] |].
  cbn [readline]. destruct (Byte.eqb c x0a).
  - simpl. split; [lia | intros _; lia].
  - destruct (readline rest) as [line rest'] eqn:E. simpl in *.
    split; [lia | intros _; lia].
Qed.

(** The comment loop ends by itself: with the fuel [read_ppm] gives it, the
    line it returns does not start with [#]. *)
Lemma skip_comments_stops (fuel : nat) :
  forall line f,
    (length f + 2 <= fuel)%nat ->
    startswith_hash (fst (skip_comments fuel line f)) = false.
Proof.
  induction fuel as [| fuel IH]; intros line f Hf; [lia |].
  cbn [skip_comments]. destruct (startswith_hash line) eqn:E; [| exact E].
  destruct (readline f) as [line' f'] eqn:R.
  destruct f as [| c rest].
  - cbn in R. injection R as <- <-.
    destruct fuel; [simpl in Hf; lia |]. reflexivity.
  - apply IH.
    pose proof (readline_length (c :: rest)) as [_ H]. rewrite R in H.
    specialize (H ltac:(congruence)). simpl in *. lia.
Qed.

Lemma dims_line_not_comment (content : list byte) :
  startswith_hash (fst (dims_line content)) = false.
Proof.
  unfold dims_line.
  destruct (readline content) as [header f].
  destruct (readline f) as [line f'].
  apply skip_comments_stops. lia.
Qed.

Lemma read_ppm_raises (parse_dims : list byte -> result (Z * Z)) (fl : file) :
  read_ppm parse_dims fl = Raise <->
  fl = None \/
  exists content, fl = Some content /\ parse_dims (fst (dims_line content)) = Raise.
Proof.
  unfold read_ppm. destruct fl as [content |].
  - destruct (dims_line content) as [line f] eqn:D. cbn [fst].
    destruct (parse_dims line) as [[w h] |] eqn:P; cbn [bind].
    + destruct (readline f) as [maxval f'].
      split; [discriminate |].
      intros [C | [content' [C P']]]; [discriminate |].
      injection C as <-. rewrite D in P'. cbn in P'. congruence.
    + split; [| reflexivity]. intros _. right. exists content.
      rewrite D. now split.
  - split; [now left | reflexivity].
Qed.

Lemma classify_try_total (pixel_data : list byte) :
  exists c, count_samples pixel_data = Ok c /\ counts_ok c /\
            total_samples c = Z.of_nat (length (sample_indices pixel_data)) /\
            classify_try pixel_data = Ok (percentages c).
Proof.
  destruct (count_samples_total pixel_data) as [c [H1 [H2 H3]]].
  exists c. repeat split; try apply H2; try assumption.
  unfold classify_try. now rewrite H1.
Qed.

Lemma analyze_try_raises (parse_dims : list byte -> result (Z * Z)) (fl : file) :
  analyze_try parse_dims fl = Raise <-> read_ppm parse_dims fl = Raise.
Proof.
  unfold analyze_try. destruct (read_ppm parse_dims fl) as [[[w h] px] |]; cbn [bind].
  - destruct (classify_try_total px) as [c [_ [_ [_ ->]]]]. split; discriminate.
  - tauto.
Qed.

Lemma analyze_of_pixels (parse_dims : list byte -> result (Z * Z)) (fl : file)
    (w h : Z) (px : list byte) :
  read_ppm parse_dims fl = Ok (w, h, px) ->
  analyze_try parse_dims fl = classify_try px.
Proof. intros H. unfold analyze_try. now rewrite H. Qed.

(** ** The percentages returned *)

Lemma within_percentages (pixel_data : list byte) (s : sample) :
  classify_try pixel_data = Ok (Some s) ->
  within_0_100 (yellow_pct s) /\ within_0_100 (grey_pct s) /\ within_0_100 (black_pct s).
Proof.
  intros H.
  destruct (classify_try_total pixel_data) as [c [_ [Hok [Ht Hc]]]].
  rewrite Hc in H. injection H as H. unfold percentages in H.
  pose proof (sample_count_bound pixel_data) as Hhi.
  destruct (total_samples c >? 0) eqn:E; [| discriminate].
  apply Z.gtb_lt in E. injection H as <-.
  destruct Hok as [Hy [Hg [Hb Hsum]]].
  unfold within_0_100, yellow_pct, grey_pct, black_pct. cbn [fst snd].
  repeat split; apply pct_bounds; lia.
Qed.

Lemma within_zero_sample :
  within_0_100 (yellow_pct zero_sample) /\ within_0_100 (grey_pct zero_sample) /\
  within_0_100 (black_pct zero_sample).
Proof. repeat split; reflexivity. Qed.

Lemma analyze_cases (parse_dims : list byte -> result (Z * Z)) (fl : file) :
  analyze_screenshot parse_dims fl = zero_sample \/
  exists w h px, read_ppm parse_dims fl = Ok (w, h, px) /\
                 classify_try px = Ok (Some (analyze_screenshot parse_dims fl)).
Proof.
  unfold analyze_screenshot, analyze_try.
  destruct (read_ppm parse_dims fl) as [[[w h] px] |]; cbn [bind]; [| now left].
  destruct (classify_try px) as [[s |] |] eqn:E; [| now left | now left].
  right. exists w, h, px. now split.
Qed.

(** C7, as the code has it. Each of the three percentages returned by
    [analyze_screenshot] lies between 0.0 and 100.0; they are the category
    counts divided by the number of samples, times 100, and the three counts
    together never exceed the number of samples (the sum of the three rounded
    percentages itself can pass 100.0 by a rounding error); a
    pixel buffer of fewer than three bytes gives no sample and the result
    [(0, 0, 0)]. *)
Theorem percentages_each_within_0_100 :
  forall (parse_dims : list byte -> result (Z * Z)) (fl : file),
    (within_0_100 (yellow_pct (analyze_screenshot parse_dims fl)) /\
     within_0_100 (grey_pct (analyze_screenshot parse_dims fl)) /\
     within_0_100 (black_pct (analyze_screenshot parse_dims fl))) /\
    (forall px : list byte,
        exists c, count_samples px = Ok c /\
                  classify_try px = Ok (percentages c) /\
                  0 <= yellow_count c /\ 0 <= grey_count c /\ 0 <= black_count c /\
                  yellow_count c + grey_count c + black_count c <= total_samples c) /\
    (forall (w h : Z) (px : list byte),
        read_ppm parse_dims fl = Ok (w, h, px) ->
        len px <= 2 ->
        count_samples px = Ok no_counts /\
        analyze_screenshot parse_dims fl = zero_sample).
Proof.
  intros parse_dims fl. split; [| split].
  - destruct (analyze_cases parse_dims fl) as [-> | [w [h [px [_ H]]]]].
    + exact within_zero_sample.
    + exact (within_percentages px _ H).
  - intros px. destruct (classify_try_total px) as [c [H1 [H2 [_ H4]]]].
    exists c. unfold counts_ok in H2. tauto.
  - intros w h px Hread Hlen.
    assert (Hc : count_samples px = Ok no_counts).
    { unfold count_samples. now rewrite (sample_count_zero px Hlen). }
    split; [exact Hc |].
    unfold analyze_screenshot, analyze_try. rewrite Hread. cbn [bind].
    unfold classify_try. rewrite Hc. reflexivity.
Qed.

(** A header announcing 2 x 2 and no pixel data: no sample, [(0, 0, 0)]. *)
Lemma percentages_each_within_0_100_witness :
  count_samples [] = Ok no_counts /\
  analyze_screenshot ascii_dims (Some no_pixels) = zero_sample.
Proof.
  apply (proj2 (proj2 (percentages_each_within_0_100 ascii_dims (Some no_pixels))) 2 2 []).
  - reflexivity.
  - unfold len. simpl. lia.
Defined.

(** C7 as stated fails on the sum. [two_of_eleven] is a well-formed 11 x 3
    image; 2 of its 11 samples are yellow and 9 are grey, and the three
    percentages returned add up to more than 100.0 (to 100.00000000000001). *)
Lemma rounded_sum_exceeds_100 :
  (exists px, read_ppm ascii_dims (Some two_of_eleven) = Ok (11, 3, px) /\
              len px = 11 * 3 * 3) /\
  analyze_screenshot ascii_dims (Some two_of_eleven) = (pct 2 11, pct 9 11, pct 0 11) /\
  (100 <? pct 2 11 + pct 9 11 + pct 0 11)%float = true.
Proof.
  split; [eexists; split; reflexivity |].
  split; [vm_compute; reflexivity | vm_compute; reflexivity].
Qed.

(** C8, as the code has it. The [try] block of [analyze_screenshot] raises
    exactly when the file cannot be opened or the dimensions line (the first
    line after the header line that does not start with [#]) does not give
    two integers; the magic token, the max-value line and the amount of
    pixel data are never checked. When it raises, the result is [(0, 0, 0)]
    and the loop handles the attempt as it handles that sample. *)
Theorem decode_raises_on_open_or_dimensions :
  forall (parse_dims : list byte -> result (Z * Z)) (fl : file),
    (analyze_try parse_dims fl = Raise <->
     fl = None \/
     exists content, fl = Some content /\
                     parse_dims (fst (dims_line content)) = Raise) /\
    (analyze_try parse_dims fl = Raise ->
     analyze_screenshot parse_dims fl = zero_sample /\
     forall l : locals,
       attempt_body l (observe parse_dims (Screenshot fl)) =
       attempt_body l (Analyzed zero_sample)).
Proof.
  intros parse_dims fl. split.
  - rewrite analyze_try_raises. apply read_ppm_raises.
  - intros H.
    assert (Hz : analyze_screenshot parse_dims fl = zero_sample)
      by (unfold analyze_screenshot; now rewrite H).
    split; [exact Hz |]. intros l. cbn [observe]. now rewrite Hz.
Qed.

(** A file that cannot be opened, and one whose dimensions line holds a
    single number. *)
Lemma decode_raises_on_open_or_dimensions_witness :
  analyze_screenshot ascii_dims None = zero_sample /\
  analyze_screenshot ascii_dims (Some one_dimension) = zero_sample.
Proof.
  split.
  - apply (proj2 (decode_raises_on_open_or_dimensions ascii_dims None)).
    reflexivity.
  - apply (proj2 (decode_raises_on_open_or_dimensions ascii_dims (Some one_dimension))).
    reflexivity.
Defined.

(** C8 as stated fails on truncated data. [truncated] announces 2 x 2 pixels
    and holds 3 of the 12 bytes; the [try] block does not raise and the
    one pixel present is classified. *)
Lemma truncated_pixels_are_classified :
  read_ppm ascii_dims (Some truncated) = Ok (2, 2, [xff; xff; x96]) /\
  len [xff; xff; x96] < 2 * 2 * 3 /\
  analyze_try ascii_dims (Some truncated) = Ok (Some (100, 0, 0)%float) /\
  analyze_screenshot ascii_dims (Some truncated) <> zero_sample.
Proof.
  split; [reflexivity |]. split; [reflexivity |].
  split; [vm_compute; reflexivity |].
  intros H. apply (f_equal (fun s => PrimFloat.eqb (yellow_pct s) 0)) in H.
  vm_compute in H. discriminate.
Qed.

(** C10. Every index visited by the sampling loop is in range with its two
    successors, so the three indexed reads succeed and the loop never
    raises; the result of [analyze_screenshot] is that of the classification
    of the bytes that follow the header, whatever width and height the header
    gives. *)
Theorem sampling_stays_in_the_buffer :
  forall parse_dims : list byte -> result (Z * Z),
    (forall (px : list byte) (i : Z),
        In i (sample_indices px) ->
        (0 <= i /\ i + 2 < len px) /\
        exists r g b, getitem px i = Ok r /\ getitem px (i + 1) = Ok g /\
                      getitem px (i + 2) = Ok b) /\
    (forall px : list byte,
        exists c, count_samples px = Ok c /\
                  total_samples c = Z.of_nat (length (sample_indices px))) /\
    (forall (fl : file) (w h : Z) (px : list byte),
        read_ppm parse_dims fl = Ok (w, h, px) ->
        analyze_try parse_dims fl = classify_try px) /\
    (forall (fl1 fl2 : file) (w1 h1 w2 h2 : Z) (px : list byte),
        read_ppm parse_dims fl1 = Ok (w1, h1, px) ->
        read_ppm parse_dims fl2 = Ok (w2, h2, px) ->
        analyze_screenshot parse_dims fl1 = analyze_screenshot parse_dims fl2).
Proof.
  intros parse_dims. repeat split.
  - apply sample_indices_spec in H. lia.
  - apply sample_indices_spec in H. lia.
  - apply sample_indices_spec in H. destruct H as [H0 [H2 _]].
    destruct (getitem_in_range px i ltac:(lia)) as [r [Hr _]].
    destruct (getitem_in_range px (i + 1) ltac:(lia)) as [g [Hg _]].
    destruct (getitem_in_range px (i + 2) ltac:(lia)) as [b [Hb _]].
    exists r, g, b. now repeat split.
  - intros px. destruct (count_samples_total px) as [c [H1 [_ H3]]].
    exists c. now split.
  - intros fl w h px. apply analyze_of_pixels.
  - intros fl1 fl2 w1 h1 w2 h2 px H1 H2.
    unfold analyze_screenshot.
    rewrite (analyze_of_pixels _ _ _ _ _ H1), (analyze_of_pixels _ _ _ _ _ H2).
    reflexivity.
Qed.

(** The same pixel bytes under headers announcing 2 x 2 and 7 x 9. *)
Lemma sampling_stays_in_the_buffer_witness :
  analyze_screenshot ascii_dims (Some truncated) =
  analyze_screenshot ascii_dims (Some oversold).
Proof.
  apply (proj2 (proj2 (proj2 (sampling_stays_in_the_buffer ascii_dims)))
           (Some truncated) (Some oversold) 2 2 7 9 [xff; xff; x96]);
    reflexivity.
Defined.

(** ** One pass of the loop *)

Lemma captures_app (t u : list event) : captures (t ++ u) = (captures t + captures u)%nat.
Proof. unfold captures. now rewrite filter_app, length_app. Qed.

Lemma closes_after_cons (e : event) (t : list event) (why : close_reason) (n : nat) :
  is_close e = false -> is_screendump e = false ->
  closes_after t why n -> closes_after (e :: t) why n.
Proof.
  intros Hc Hs [pre [-> [Hpre Hn]]]. exists (e :: pre). repeat split.
  - cbn [existsb]. now rewrite Hc.
  - unfold captures in *. cbn [filter]. now rewrite Hs.
Qed.

Lemma closes_after_app (pre t : list event) (why : close_reason) (m n : nat) :
  existsb is_close pre = false -> captures pre = m ->
  closes_after t why n -> closes_after (pre ++ t) why (m + n).
Proof.
  intros Hc Hm [pre' [-> [Hpre Hn]]]. exists (pre ++ pre'). repeat split.
  - now rewrite app_assoc.
  - rewrite existsb_app, Hc, Hpre. reflexivity.
  - rewrite captures_app. lia.
Qed.

Ltac split_tests H :=
  repeat match type of H with
         | context [if ?c then _ else _] => destruct c eqn:?
         end.

(** A pass that does not return makes one capture attempt, calls
    [schedule_close] nowhere and leaves [check_count] alone. *)
Lemma attempt_body_goes_on (l l' : locals) (a : attempt) (evs : list event) :
  attempt_body l a = (l', evs, None) ->
  existsb is_close evs = false /\ captures evs = 1%nat /\
  check_count l' = check_count l.
Proof.
  intros H. destruct a as [| | [[y g] b]]; cbn in H.
  - inversion H; subst. now repeat split.
  - inversion H; subst. now repeat split.
  - unfold grey_and_safety in H. split_tests H; try discriminate H;
      inversion H; subst; now repeat split.
Qed.

(** A pass that returns makes one capture attempt and ends in its only call
    of [schedule_close]. *)
Lemma attempt_body_returns (l l' : locals) (a : attempt) (evs : list event)
    (why : close_reason) :
  attempt_body l a = (l', evs, Some why) -> closes_after evs why 1.
Proof.
  intros H. destruct a as [| | [[y g] b]]; cbn in H; try discriminate H.
  unfold grey_and_safety in H. split_tests H; try discriminate H;
    inversion H; subst;
    match goal with
    | |- closes_after (?a :: ?b :: ?c :: ?d :: nil) _ _ => exists [a; b; c]
    | |- closes_after (?a :: ?b :: ?c :: nil) _ _ => exists [a; b]
    end; now repeat split.
Qed.

(** ** The loop *)

Lemma monitor_loop_unfold (fuel : nat) (is_running : Z -> bool)
    (world : Z -> attempt) (l : locals) :
  monitor_loop (S fuel) is_running world l =
  if is_running (check_count l) && (check_count l <? 80) then
    let '(l', evs, ret) := attempt_body l (world (check_count l)) in
    match ret with
    | Some _ => evs
    | None => evs ++ Sleep 250 :: monitor_loop fuel is_running world (next_attempt l')
    end
  else [ScheduleClose MonitorTimeout].
Proof. reflexivity. Qed.

Lemma closes_after_timeout : closes_after [ScheduleClose MonitorTimeout] MonitorTimeout 0.
Proof. exists []. now repeat split. Qed.

(** [n] passes without a return: the trace starts with their events, which
    hold [n] capture attempts and no call of [schedule_close], and goes on as
    the loop does from the locals reached. *)
Lemma monitor_loop_passes (is_running : Z -> bool) (world : Z -> attempt) (n : nat) :
  forall (fuel : nat) (l l1 : locals),
    (n <= fuel)%nat ->
    run_passes n world l = (l1, None) ->
    (forall k, check_count l <= k < check_count l + Z.of_nat n -> is_running k = true) ->
    check_count l + Z.of_nat n <= 80 ->
    check_count l1 = check_count l + Z.of_nat n /\
    exists pre,
      monitor_loop fuel is_running world l =
      pre ++ monitor_loop (fuel - n) is_running world l1 /\
      existsb is_close pre = false /\ captures pre = n.
Proof.
  induction n as [| n IH]; intros fuel l l1 Hfuel Hrun Hon Hcc.
  - cbn in Hrun. injection Hrun as <-. split; [lia |].
    exists []. rewrite Nat.sub_0_r. now repeat split.
  - destruct fuel as [| fuel]; [lia |].
    cbn [run_passes] in Hrun. rewrite monitor_loop_unfold.
    rewrite (Hon (check_count l)) by lia.
    replace (check_count l <? 80) with true by (symmetry; apply Z.ltb_lt; lia).
    cbn [andb].
    destruct (attempt_body l (world (check_count l))) as [[l' evs] ret] eqn:B.
    destruct ret as [why |]; [discriminate |].
    destruct (attempt_body_goes_on _ _ _ _ B) as [Hc [Hn Hl']].
    destruct (IH fuel (next_attempt l') l1) as [Hcc1 [pre [Heq [Hpre Hcap]]]].
    + lia.
    + exact Hrun.
    + intros k Hk. apply Hon. cbn [next_attempt check_count] in Hk. lia.
    + cbn [next_attempt check_count]. lia.
    + cbn [next_attempt check_count] in Hcc1. split; [lia |].
      exists (evs ++ Sleep 250 :: pre). repeat split.
      * rewrite Heq. cbn [Nat.sub]. now rewrite <- app_assoc.
      * rewrite existsb_app, Hc. cbn [existsb is_close orb]. exact Hpre.
      * rewrite captures_app, Hn. unfold captures in *. cbn [filter is_screendump].
        lia.
Qed.

(** The pass after [n] passes without a return returns: the trace ends there,
    in its only call of [schedule_close], after [n + 1] capture attempts. *)
Lemma monitor_loop_closes_at (is_running : Z -> bool) (world : Z -> attempt)
    (n fuel : nat) (l l1 l2 : locals) (evs : list event) (why : close_reason) :
  (n < fuel)%nat ->
  run_passes n world l = (l1, None) ->
  attempt_body l1 (world (check_count l1)) = (l2, evs, Some why) ->
  (forall k, check_count l <= k <= check_count l + Z.of_nat n -> is_running k = true) ->
  check_count l + Z.of_nat n < 80 ->
  closes_after (monitor_loop fuel is_running world l) why (S n).
Proof.
  intros Hfuel Hrun Hbody Hon Hcc.
  destruct (monitor_loop_passes is_running world n fuel l l1) as [Hcc1 [pre [Heq [Hpre Hcap]]]];
    try assumption; try lia.
  { intros k Hk. apply Hon. lia. }
  rewrite Heq. replace (S n) with (n + 1)%nat by lia.
  apply closes_after_app; try assumption.
  destruct (fuel - n)%nat as [| fuel'] eqn:E; [lia |].
  rewrite monitor_loop_unfold, Hcc1, (Hon (check_count l + Z.of_nat n) ltac:(lia)).
  replace (check_count l + Z.of_nat n <? 80) with true by (symmetry; apply Z.ltb_lt; lia).
  cbn [andb]. rewrite <- Hcc1, Hbody.
  exact (attempt_body_returns _ _ _ _ _ Hbody).
Qed.

(** [n] passes without a return take [check_count] to 80: the loop ends and
    the call after it is the only call of [schedule_close]. *)
Lemma monitor_loop_times_out (is_running : Z -> bool) (world : Z -> attempt)
    (n fuel : nat) (l l1 : locals) :
  (n < fuel)%nat ->
  run_passes n world l = (l1, None) ->
  (forall k, check_count l <= k < check_count l + Z.of_nat n -> is_running k = true) ->
  check_count l + Z.of_nat n = 80 ->
  closes_after (monitor_loop fuel is_running world l) MonitorTimeout n.
Proof.
  intros Hfuel Hrun Hon Hcc.
  destruct (monitor_loop_passes is_running world n fuel l l1) as [Hcc1 [pre [Heq [Hpre Hcap]]]];
    try assumption; try lia.
  rewrite Heq. replace n with (n + 0)%nat at 2 by lia.
  apply closes_after_app; try assumption.
  destruct (fuel - n)%nat as [| fuel'] eqn:E; [lia |].
  rewrite monitor_loop_unfold, Hcc1.
  replace (check_count l + Z.of_nat n <? 80) with false by (symmetry; apply Z.ltb_ge; lia).
  rewrite andb_false_r. exact closes_after_timeout.
Qed.

(** Whatever the passes meet and whenever [self.running] is cleared, the loop
    ends, in its only call of [schedule_close]. *)
Lemma monitor_loop_decides (is_running : Z -> bool) (world : Z -> attempt) (fuel : nat) :
  forall l : locals,
    (0 < fuel)%nat ->
    80 - check_count l < Z.of_nat fuel ->
    exists why n, closes_after (monitor_loop fuel is_running world l) why n.
Proof.
  induction fuel as [| fuel IH]; intros l Hpos Hfuel.
  - lia.
  - rewrite monitor_loop_unfold.
    destruct (is_running (check_count l) && (check_count l <? 80)) eqn:T.
    + apply andb_prop in T. destruct T as [_ T]. apply Z.ltb_lt in T.
      destruct (attempt_body l (world (check_count l))) as [[l' evs] ret] eqn:B.
      destruct ret as [why |].
      * exists why, 1%nat. exact (attempt_body_returns _ _ _ _ _ B).
      * destruct (attempt_body_goes_on _ _ _ _ B) as [Hc [Hn Hl']].
        destruct (IH (next_attempt l')) as [why [n Hcl]].
        { lia. }
        { cbn [next_attempt check_count]. lia. }
        exists why, (1 + n)%nat.
        apply closes_after_app; [exact Hc | exact Hn |].
        now apply closes_after_cons.
    + exists MonitorTimeout, 0%nat. exact closes_after_timeout.
Qed.

Lemma monitor_vnc_decides (is_running : Z -> bool) (world : Z -> attempt) :
  exists why n, closes_after (monitor_vnc is_running world) why n.
Proof.
  destruct (monitor_loop_decides is_running world 81 initial_locals) as [why [n H]].
  - lia.
  - cbn. lia.
  - exists why, n. unfold monitor_vnc. now apply closes_after_cons.
Qed.

(** A trace that ends in its only call of [schedule_close] holds one
    decision, and nothing after it. *)
Lemma closes_after_decisions (t : list event) (why : close_reason) (n : nat) :
  closes_after t why n ->
  decisions t = [decision_of why] /\ captures t = n /\
  forall a e b, t = a ++ e :: b -> is_close e = true -> b = [].
Proof.
  intros [pre [-> [Hpre Hn]]].
  assert (Hd : decisions pre = []).
  { clear Hn. induction pre as [| e pre IH]; [reflexivity |].
    cbn [existsb] in Hpre. apply orb_false_elim in Hpre. destruct Hpre as [He Hp].
    unfold decisions in *. cbn [flat_map]. rewrite (IH Hp).
    destruct e; try reflexivity; discriminate. }
  repeat split.
  - unfold decisions in *. rewrite flat_map_app, Hd. reflexivity.
  - rewrite captures_app, Hn. unfold captures. cbn. lia.
  - intros a e b Heq He.
    clear Hn Hd. revert a Heq. induction pre as [| p pre IH]; intros a Heq.
    + destruct a as [| x a]; cbn in Heq.
      * now injection Heq as _ <-.
      * injection Heq as _ Heq. now destruct a.
    + cbn [existsb] in Hpre. apply orb_false_elim in Hpre. destruct Hpre as [Hp Hpre].
      destruct a as [| x a]; cbn in Heq.
      * injection Heq as <- _. congruence.
      * injection Heq as _ Heq. exact (IH Hpre a Heq).
Qed.

(** The loop consults [world] only at the values [check_count] takes. *)
Lemma run_passes_ext (world world' : Z -> attempt) (n : nat) :
  forall l : locals,
    (forall k, check_count l <= k < check_count l + Z.of_nat n -> world k = world' k) ->
    run_passes n world l = run_passes n world' l.
Proof.
  induction n as [| n IH]; intros l H; [reflexivity |].
  cbn [run_passes]. rewrite (H (check_count l)) by lia.
  destruct (attempt_body l (world' (check_count l))) as [[l' evs] ret] eqn:B.
  destruct ret; [reflexivity |].
  destruct (attempt_body_goes_on _ _ _ _ B) as [_ [_ Hl']].
  apply IH. intros k Hk. apply H. cbn [next_attempt check_count] in Hk. lia.
Qed.

Lemma monitor_loop_ext (is_running : Z -> bool) (world world' : Z -> attempt) (fuel : nat) :
  forall l : locals,
    (forall k, world k = world' k) ->
    monitor_loop fuel is_running world l = monitor_loop fuel is_running world' l.
Proof.
  induction fuel as [| fuel IH]; intros l H; [reflexivity |].
  rewrite !monitor_loop_unfold, H.
  destruct (is_running (check_count l) && (check_count l <? 80)); [| reflexivity].
  destruct (attempt_body l (world' (check_count l))) as [[l' evs] ret].
  destruct ret; [reflexivity |]. now rewrite IH.
Qed.

(** Passes that all skip the analysis change nothing but [check_count]. *)
Lemma run_passes_skipped (world : Z -> attempt) (n : nat) :
  forall l : locals,
    (forall k, check_count l <= k < check_count l + Z.of_nat n -> skipped (world k)) ->
    run_passes n world l =
    (mkLocals (check_count l + Z.of_nat n) (yellow_seen l) (post_yellow_frames l), None).
Proof.
  induction n as [| n IH]; intros l H.
  - cbn [run_passes]. destruct l. cbn. do 2 f_equal. lia.
  - cbn [run_passes].
    assert (Hs : attempt_body l (world (check_count l)) =
                 (l, snd (fst (attempt_body l (world (check_count l)))), None)).
    { destruct (H (check_count l) ltac:(lia)) as [-> | ->]; reflexivity. }
    rewrite Hs. rewrite IH.
    + cbn [next_attempt check_count yellow_seen post_yellow_frames]. do 2 f_equal. lia.
    + intros k Hk. apply H. cbn [next_attempt check_count] in Hk. lia.
Qed.

(** C1. Fed three samples at 80% yellow and then two at 5% (grey and black
    at 0), the loop calls [schedule_close] ("dismiss now") while handling the
    fifth sample, the second one below 10% yellow, and not while handling the
    fourth; and whatever the state, a sample above 20% yellow leaves
    [yellow_seen] set and [post_yellow_frames] at 0. *)
Theorem closes_on_second_clear_frame :
  (forall (is_running : Z -> bool) (world : Z -> attempt),
      (forall k, 0 <= k <= 4 -> is_running k = true) ->
      (forall k, 0 <= k <= 4 -> world k = feed firmware_then_clear k) ->
      monitor_vnc is_running world =
      [Sleep 2000;
       Screendump 0; Sleep 300; RemoveScreenshot; Sleep 250;
       Screendump 1; Sleep 300; RemoveScreenshot; Sleep 250;
       Screendump 2; Sleep 300; RemoveScreenshot; Sleep 250;
       Screendump 3; Sleep 300; RemoveScreenshot; Sleep 250;
       Screendump 4; Sleep 300; Sleep 300; ScheduleClose YellowPassed] /\
      decision_of YellowPassed = DismissNow) /\
  (forall (l : locals) (y g b : float),
      (20 <? y)%float = true ->
      yellow_seen (fst (fst (transitions l (y, g, b)))) = true /\
      post_yellow_frames (fst (fst (transitions l (y, g, b)))) = 0).
Proof.
  split.
  - intros is_running world Hrun Hworld. split; [| reflexivity].
    unfold monitor_vnc. f_equal.
    do 5 (rewrite monitor_loop_unfold;
          cbn [check_count initial_locals];
          rewrite Hrun by lia; rewrite Hworld by lia;
          cbv - [monitor_loop]; repeat f_equal).
  - intros l y g b Hy. unfold transitions. rewrite Hy.
    unfold grey_and_safety. cbn [check_count yellow_seen negb andb].
    destruct (50 <? g)%float; [now split |].
    rewrite andb_false_r. now split.
Qed.

(** The run on [firmware_then_clear] with the overlay up throughout, and a
    sample at 80% yellow met with the counter at 1. *)
Lemma closes_on_second_clear_frame_witness :
  monitor_vnc always_running (feed firmware_then_clear) =
  [Sleep 2000;
   Screendump 0; Sleep 300; RemoveScreenshot; Sleep 250;
   Screendump 1; Sleep 300; RemoveScreenshot; Sleep 250;
   Screendump 2; Sleep 300; RemoveScreenshot; Sleep 250;
   Screendump 3; Sleep 300; RemoveScreenshot; Sleep 250;
   Screendump 4; Sleep 300; Sleep 300; ScheduleClose YellowPassed] /\
  yellow_seen (fst (fst (transitions (mkLocals 7 false 1) yellow_80))) = true /\
  post_yellow_frames (fst (fst (transitions (mkLocals 7 false 1) yellow_80))) = 0.
Proof.
  split.
  - apply (proj1 closes_on_second_clear_frame always_running (feed firmware_then_clear)).
    + reflexivity.
    + reflexivity.
  - apply (proj2 closes_on_second_clear_frame (mkLocals 7 false 1) 80%float 0%float 0%float).
    reflexivity.
Defined.

Lemma monitor_vnc_closes_at (is_running : Z -> bool) (world : Z -> attempt)
    (n : nat) (l1 l2 : locals) (evs : list event) (why : close_reason) :
  run_passes n world initial_locals = (l1, None) ->
  attempt_body l1 (world (Z.of_nat n)) = (l2, evs, Some why) ->
  (forall k, 0 <= k <= Z.of_nat n -> is_running k = true) ->
  Z.of_nat n < 80 ->
  closes_after (monitor_vnc is_running world) why (S n).
Proof.
  intros Hrun Hbody Hon Hn. unfold monitor_vnc.
  apply closes_after_cons; [reflexivity | reflexivity |].
  assert (Hcc : check_count l1 = Z.of_nat n).
  { destruct (monitor_loop_passes is_running world n n initial_locals l1 (le_n n) Hrun)
      as [H _].
    - intros k Hk. apply Hon. cbn in Hk. lia.
    - cbn. lia.
    - exact H. }
  apply (monitor_loop_closes_at is_running world n 81 initial_locals l1 l2 evs why).
  - lia.
  - exact Hrun.
  - now rewrite Hcc.
  - intros k Hk. apply Hon. cbn in Hk. lia.
  - cbn. lia.
Qed.

Lemma monitor_vnc_times_out (is_running : Z -> bool) (world : Z -> attempt) (l1 : locals) :
  run_passes 80 world initial_locals = (l1, None) ->
  (forall k, 0 <= k < 80 -> is_running k = true) ->
  closes_after (monitor_vnc is_running world) MonitorTimeout 80.
Proof.
  intros Hrun Hon. unfold monitor_vnc.
  apply closes_after_cons; [reflexivity | reflexivity |].
  apply (monitor_loop_times_out is_running world 80 81 initial_locals l1).
  - lia.
  - exact Hrun.
  - intros k Hk. apply Hon. cbn in Hk. lia.
  - reflexivity.
Qed.

(** C2, as the code has it. Fed samples without any signal, the loop makes
    its safety call of [schedule_close] ("dismiss now") in the pass whose
    [check_count] is 41, the first above 40: after 42 capture attempts,
    [yellow_seen] never set, and not at the end of the budget. A run whose
    80 passes all go by without a return ends in the call after the loop
    ("dismiss on timeout"), after 80 capture attempts. *)
Theorem safety_net_fires_after_attempt_40 :
  forall (is_running : Z -> bool) (world : Z -> attempt),
    ((forall k, 0 <= k <= 41 -> is_running k = true) ->
     (forall k, 0 <= k <= 41 -> world k = Analyzed zero_sample) ->
     closes_after (monitor_vnc is_running world) NoYellowTimeout 42 /\
     decision_of NoYellowTimeout = DismissNow /\
     run_passes 41 world initial_locals = (mkLocals 41 false 0, None)) /\
    ((forall k, 0 <= k < 80 -> is_running k = true) ->
     snd (run_passes 80 world initial_locals) = None ->
     closes_after (monitor_vnc is_running world) MonitorTimeout 80 /\
     decision_of MonitorTimeout = DismissOnTimeout).
Proof.
  intros is_running world. split.
  - intros Hon Hworld.
    assert (H41 : run_passes 41 world initial_locals = (mkLocals 41 false 0, None)).
    { rewrite (run_passes_ext world silence).
      - vm_compute. reflexivity.
      - intros k Hk. cbn in Hk. apply Hworld. lia. }
    repeat split; [| exact H41].
    apply (monitor_vnc_closes_at is_running world 41 (mkLocals 41 false 0)
             (mkLocals 41 false 0)
             [Screendump 41; Sleep 300; ScheduleClose NoYellowTimeout]);
      try assumption; try lia.
    rewrite Hworld by lia. reflexivity.
  - intros Hon Hnone. split; [| reflexivity].
    destruct (run_passes 80 world initial_locals) as [l1 ret] eqn:E.
    cbn in Hnone. subst ret.
    exact (monitor_vnc_times_out is_running world l1 E Hon).
Qed.

(** The run on samples without any signal, and the run in which every
    capture raises. *)
Lemma safety_net_fires_after_attempt_40_witness :
  closes_after (monitor_vnc always_running silence) NoYellowTimeout 42 /\
  closes_after (monitor_vnc always_running every_capture_fails) MonitorTimeout 80.
Proof.
  split.
  - apply (proj1 (safety_net_fires_after_attempt_40 always_running silence)).
    + reflexivity.
    + reflexivity.
  - apply (proj2 (safety_net_fires_after_attempt_40 always_running every_capture_fails)).
    + reflexivity.
    + vm_compute. reflexivity.
Defined.

(** C2 as stated fails at attempt 40. On samples without any signal the
    passes with [check_count] 39 and 40 (the 40th and the 41st) do not
    return: 41 passes go by without a call of [schedule_close], and the run
    makes 42 capture attempts. *)
Lemma safety_net_silent_at_attempt_40 :
  snd (attempt_body (mkLocals 39 false 0) (Analyzed zero_sample)) = None /\
  snd (attempt_body (mkLocals 40 false 0) (Analyzed zero_sample)) = None /\
  run_passes 41 (feed (repeat zero_sample 80)) initial_locals = (mkLocals 41 false 0, None) /\
  captures (monitor_vnc always_running (feed (repeat zero_sample 80))) = 42%nat.
Proof. repeat split; vm_compute; reflexivity. Qed.

(** C3, as the code has it. A screenshot whose analysis raises counts as the
    sample [(0, 0, 0)]: a run in which every analysis raises is the run on
    samples without any signal. A capture that raises, or that leaves no
    file, skips the tests of lines 160-189: the pass changes no local, calls
    nothing, and a run of such passes goes to the end of the budget. *)
Theorem failed_attempts_by_kind :
  forall parse_dims : list byte -> result (Z * Z),
    (forall (is_running : Z -> bool) (files : Z -> file),
        (forall k, analyze_try parse_dims (files k) = Raise) ->
        monitor_vnc is_running (fun k => observe parse_dims (Screenshot (files k))) =
        monitor_vnc is_running silence) /\
    (forall l : locals,
        attempt_body l (observe parse_dims CaptureFailed) =
          (l, [Screendump (check_count l)], None) /\
        attempt_body l (observe parse_dims NoFile) =
          (l, [Screendump (check_count l); Sleep 300], None)) /\
    (forall (is_running : Z -> bool) (world : Z -> attempt),
        (forall k, 0 <= k < 80 -> is_running k = true) ->
        (forall k, 0 <= k < 80 -> skipped (world k)) ->
        closes_after (monitor_vnc is_running world) MonitorTimeout 80).
Proof.
  intros parse_dims. split; [| split].
  - intros is_running files Hraise. unfold monitor_vnc.
    rewrite (monitor_loop_ext is_running
               (fun k => observe parse_dims (Screenshot (files k))) silence 81
               initial_locals); [reflexivity |].
    intros k. cbn [observe]. unfold silence, analyze_screenshot.
    now rewrite Hraise.
  - intros l. split; reflexivity.
  - intros is_running world Hon Hskip.
    apply (monitor_vnc_times_out is_running world (mkLocals 80 false 0)); [| exact Hon].
    rewrite run_passes_skipped; [reflexivity |].
    intros k Hk. apply Hskip. cbn in Hk. lia.
Qed.

(** A run in which every screenshot has a one-number dimensions line, and
    the run in which every capture raises. *)
Lemma failed_attempts_by_kind_witness :
  monitor_vnc always_running (fun k => observe ascii_dims (Screenshot (Some one_dimension))) =
  monitor_vnc always_running silence /\
  closes_after (monitor_vnc always_running every_capture_fails) MonitorTimeout 80.
Proof.
  split.
  - apply (proj1 (failed_attempts_by_kind ascii_dims) always_running
             (fun _ => Some one_dimension)).
    intros k. reflexivity.
  - apply (proj2 (proj2 (failed_attempts_by_kind ascii_dims)) always_running
             every_capture_fails).
    + reflexivity.
    + intros k Hk. left. reflexivity.
Defined.

(** C3 as stated fails for capture errors. A run in which every capture
    raises ends in the timeout call after 80 attempts; the run on all-zero
    samples ends in the safety call after 42. *)
Lemma capture_errors_are_not_zero_samples :
  decisions (monitor_vnc always_running every_capture_fails) = [DismissOnTimeout] /\
  captures (monitor_vnc always_running every_capture_fails) = 80%nat /\
  decisions (monitor_vnc always_running silence) = [DismissNow] /\
  captures (monitor_vnc always_running silence) = 42%nat.
Proof. repeat split; vm_compute; reflexivity. Qed.

(** C4. Whatever the locals, a sample above 50% grey makes the pass return
    through a call of [schedule_close] ("dismiss now"), a short sleep (0.3 s
    or 0.5 s) just before it; and whatever the passes before it met, if the
    loop reaches that pass the trace ends there. *)
Theorem grey_screen_closes_in_the_same_pass :
  forall (y g b : float),
    (50 <? g)%float = true ->
    (forall l : locals,
        exists l' delay why,
          attempt_body l (Analyzed (y, g, b)) =
            (l', [Screendump (check_count l); Sleep 300; Sleep delay; ScheduleClose why],
             Some why) /\
          decision_of why = DismissNow /\ (delay = 300 \/ delay = 500)) /\
    (forall (is_running : Z -> bool) (world : Z -> attempt) (n : nat) (l1 : locals),
        run_passes n world initial_locals = (l1, None) ->
        (forall k, 0 <= k <= Z.of_nat n -> is_running k = true) ->
        Z.of_nat n < 80 ->
        world (Z.of_nat n) = Analyzed (y, g, b) ->
        exists why,
          decision_of why = DismissNow /\
          closes_after (monitor_vnc is_running world) why (S n)).
Proof.
  intros y g b Hg.
  assert (Hbody : forall l : locals,
             exists l' delay why,
               attempt_body l (Analyzed (y, g, b)) =
                 (l', [Screendump (check_count l); Sleep 300; Sleep delay; ScheduleClose why],
                  Some why) /\
               decision_of why = DismissNow /\ (delay = 300 \/ delay = 500)).
  { intros l. cbn [attempt_body]. unfold transitions, grey_and_safety. rewrite Hg.
    destruct (20 <? y)%float.
    - eexists _, 500, GreyScreen. cbn. repeat split. now right.
    - destruct (yellow_seen l && (y <? 10)%float).
      + cbn [post_yellow_frames check_count].
        destruct (post_yellow_frames l + 1 >=? 2).
        * eexists _, 300, YellowPassed. cbn. repeat split. now left.
        * eexists _, 500, GreyScreen. cbn. repeat split. now right.
      + eexists _, 500, GreyScreen. cbn. repeat split. now right. }
  split; [exact Hbody |].
  intros is_running world n l1 Hrun Hon Hn Hworld.
  destruct (Hbody l1) as [l' [delay [why [Hb [Hd _]]]]].
  exists why. split; [exact Hd |].
  apply (monitor_vnc_closes_at is_running world n l1 l'
           [Screendump (check_count l1); Sleep 300; Sleep delay; ScheduleClose why]);
    try assumption.
  now rewrite Hworld.
Qed.

(** A sample at 60% grey met first, and met after three frames of yellow. *)
Lemma grey_screen_closes_in_the_same_pass_witness :
  (exists why, decision_of why = DismissNow /\
               closes_after (monitor_vnc always_running (feed [(0, 60, 0)%float])) why 1) /\
  (exists why,
      decision_of why = DismissNow /\
      closes_after
        (monitor_vnc always_running (feed [yellow_80; yellow_80; yellow_80; (5, 60, 0)%float]))
        why 4).
Proof.
  split.
  - apply (proj2 (grey_screen_closes_in_the_same_pass 0%float 60%float 0%float eq_refl)
             always_running (feed [(0, 60, 0)%float]) 0%nat initial_locals).
    + reflexivity.
    + reflexivity.
    + lia.
    + reflexivity.
  - apply (proj2 (grey_screen_closes_in_the_same_pass 5%float 60%float 0%float eq_refl)
             always_running (feed [yellow_80; yellow_80; yellow_80; (5, 60, 0)%float])
             3%nat (mkLocals 3 true 0)).
    + reflexivity.
    + reflexivity.
    + lia.
    + reflexivity.
Defined.

(** C5 on the input [clear_frames_apart]: yellow at 80%, 5%, 15%, 5%. The
    frame at 15% neither counts nor resets [post_yellow_frames], and the
    loop closes on the fourth sample although the two frames below 10% are
    not consecutive. *)
Lemma clear_frames_apart_still_close :
  monitor_vnc always_running (feed clear_frames_apart) =
  [Sleep 2000;
   Screendump 0; Sleep 300; RemoveScreenshot; Sleep 250;
   Screendump 1; Sleep 300; RemoveScreenshot; Sleep 250;
   Screendump 2; Sleep 300; RemoveScreenshot; Sleep 250;
   Screendump 3; Sleep 300; Sleep 300; ScheduleClose YellowPassed] /\
  run_passes 3 (feed clear_frames_apart) initial_locals = (mkLocals 3 true 1, None).
Proof. split; vm_compute; reflexivity. Qed.

(** ** The overlay object *)

Lemma schedule_close_ignored (sp : splash) :
  running sp = false -> schedule_close sp = sp.
Proof. intros H. unfold schedule_close. now rewrite H. Qed.

(** Once [close] has run nothing changes the object any more. *)
Lemma react_after_exit (stimuli : list stimulus) :
  forall sp : splash,
    running sp = false -> exit_status sp <> None ->
    fold_left react stimuli sp = sp.
Proof.
  induction stimuli as [| st rest IH]; intros sp Hr He; [reflexivity |].
  cbn [fold_left].
  assert (Hst : react sp st = sp).
  { destruct st as [| cb]; cbn [react].
    - now apply schedule_close_ignored.
    - destruct (exit_status sp); [reflexivity | congruence]. }
  rewrite Hst. now apply IH.
Qed.

(** The body of [close] runs at most once, whatever happens in whatever
    order. *)
Lemma teardown_at_most_once (stimuli : list stimulus) :
  forall sp : splash,
    exit_status sp = None ->
    (teardowns (fold_left react stimuli sp) <= S (teardowns sp))%nat.
Proof.
  induction stimuli as [| st rest IH]; intros sp He; [cbn; lia |].
  cbn [fold_left]. destruct st as [| cb]; cbn [react].
  - unfold schedule_close. destruct (running sp).
    + specialize (IH (after 100 Close sp) He). cbn in IH. exact IH.
    + now apply IH.
  - rewrite He. destruct cb.
    + unfold keep_on_top. destruct (running sp && (lift_count sp <? 100)).
      * specialize (IH (after 100 KeepOnTop
                          (mkSplash (running sp) (lift_count sp + 1) (timers sp)
                                    (teardowns sp) (exit_status sp))) He).
        cbn in IH. exact IH.
      * now apply IH.
    + rewrite react_after_exit; [cbn; lia | reflexivity | discriminate].
Qed.

(** C9. The thread calls [schedule_close] once, as the last thing it does: a
    run holds one decision and no capture attempt after it. On the overlay
    side a call of [schedule_close] made once [close] has run is ignored
    (nothing is registered, nothing raises), nothing that happens after
    [close] changes the object, and the body of [close] runs at most once
    in a run of the process. *)
Theorem one_decision_per_run :
  (forall (is_running : Z -> bool) (world : Z -> attempt),
      exists why n,
        closes_after (monitor_vnc is_running world) why n /\
        decisions (monitor_vnc is_running world) = [decision_of why] /\
        forall a e b,
          monitor_vnc is_running world = a ++ e :: b -> is_close e = true -> b = []) /\
  (forall sp : splash,
      running (close sp) = false /\ schedule_close (close sp) = close sp) /\
  (forall (sp : splash) (stimuli : list stimulus),
      fold_left react stimuli (close sp) = close sp) /\
  (forall stimuli : list stimulus,
      (teardowns (fold_left react stimuli started) <= 1)%nat).
Proof.
  split; [| split; [| split]].
  - intros is_running world.
    destruct (monitor_vnc_decides is_running world) as [why [n H]].
    exists why, n. destruct (closes_after_decisions _ _ _ H) as [Hd [_ Hlast]].
    repeat split; assumption.
  - intros sp. split; reflexivity.
  - intros sp stimuli. apply react_after_exit; [reflexivity | discriminate].
  - intros stimuli. apply (teardown_at_most_once stimuli started). reflexivity.
Qed.

(** ** Further properties *)

(** The hysteresis return (line 173) is taken exactly when the sample is not
    above 20% yellow, yellow was seen before, the sample is below 10% yellow
    and [post_yellow_frames] was already at 1 or more. *)
Theorem hysteresis_return_condition :
  forall (l : locals) (y g b : float),
    snd (transitions l (y, g, b)) = Some YellowPassed <->
    (20 <? y)%float = false /\ yellow_seen l = true /\ (y <? 10)%float = true /\
    1 <= post_yellow_frames l.
Proof.
  intros l y g b. unfold transitions, grey_and_safety.
  destruct (20 <? y)%float.
  - cbn [check_count yellow_seen negb]. rewrite andb_false_r.
    destruct (50 <? g)%float; cbn [snd]; split;
      try discriminate; intros [H _]; discriminate.
  - destruct (yellow_seen l); cbn [andb].
    + destruct (y <? 10)%float.
      * cbn [post_yellow_frames check_count yellow_seen negb].
        destruct (Z.geb_spec (post_yellow_frames l + 1) 2) as [Hge | Hlt].
        -- cbn [snd]. split; [intros _; repeat split; lia | reflexivity].
        -- rewrite andb_false_r.
           destruct (50 <? g)%float; cbn [snd]; split;
             try discriminate; intros [_ [_ [_ Hone]]]; lia.
      * destruct (50 <? g)%float; [| destruct (_ && _)]; cbn [snd]; split;
          try discriminate; intros [_ [_ [H _]]]; discriminate.
    + destruct (50 <? g)%float; [| destruct (_ && _)]; cbn [snd]; split;
        try discriminate; intros [_ [H _]]; discriminate.
Qed.

(** [keep_on_top] stops re-arming itself: [lift_count] never passes 100. *)
Theorem lift_count_bounded :
  forall stimuli : list stimulus,
    lift_count (fold_left react stimuli started) <= 100.
Proof.
  intros stimuli.
  enough (H : forall sp, lift_count sp <= 100 ->
                         lift_count (fold_left react stimuli sp) <= 100)
    by (apply H; cbn; lia).
  induction stimuli as [| st rest IH]; intros sp Hsp; [exact Hsp |].
  cbn [fold_left]. apply IH.
  destruct st as [| cb]; cbn [react].
  - unfold schedule_close. destruct (running sp); assumption.
  - destruct (exit_status sp); [assumption |]. destruct cb; [| assumption].
    unfold keep_on_top.
    destruct (running sp); cbn [andb]; [| assumption].
    destruct (Z.ltb_spec (lift_count sp) 100) as [Hlt | Hge]; [cbn; lia | assumption].
Qed.

(** The sampling loop looks at no more than 1333 pixels, whatever the size
    of the image. *)
Theorem at_most_1333_samples :
  forall pixel_data : list byte,
    exists c, count_samples pixel_data = Ok c /\ 0 <= total_samples c <= 1333.
Proof.
  intros pixel_data.
  destruct (count_samples_total pixel_data) as [c [H1 [_ H3]]].
  pose proof (sample_count_bound pixel_data) as Hb.
  exists c. split; [exact H1 | lia].
Qed.

(** ** Sampling seen pixel by pixel *)

Lemma raster_length (pixels : list pixel) : len (raster pixels) = 3 * len pixels.
Proof.
  unfold len, raster. induction pixels as [| [[r g] b] ps IH]; [reflexivity |].
  cbn [flat_map app length]. lia.
Qed.

Lemma raster_nth (pixels : list pixel) :
  forall (j : nat) (r g b : byte),
    nth_error pixels j = Some (r, g, b) ->
    nth_error (raster pixels) (3 * j) = Some r /\
    nth_error (raster pixels) (3 * j + 1) = Some g /\
    nth_error (raster pixels) (3 * j + 2) = Some b.
Proof.
  induction pixels as [| [[r0 g0] b0] ps IH]; intros j r g b Hj.
  - destruct j; discriminate.
  - destruct j as [| j].
    + cbn in Hj. injection Hj as -> -> ->. repeat split; reflexivity.
    + replace (3 * S j)%nat with (S (S (S (3 * j)))) by lia.
      cbn [raster flat_map app plus nth_error] in *. now apply IH.
Qed.

Lemma getitem_raster (pixels : list pixel) (j : Z) :
  0 <= j < len pixels ->
  exists r g b,
    nth (Z.to_nat j) pixels (x00, x00, x00) = (r, g, b) /\
    getitem (raster pixels) (3 * j) = Ok (byte_val r) /\
    getitem (raster pixels) (3 * j + 1) = Ok (byte_val g) /\
    getitem (raster pixels) (3 * j + 2) = Ok (byte_val b).
Proof.
  intros Hj. unfold len in Hj.
  destruct (nth_error pixels (Z.to_nat j)) as [[[r g] b] |] eqn:E.
  - exists r, g, b. split; [now apply nth_error_nth |].
    destruct (raster_nth pixels (Z.to_nat j) r g b E) as [Hr [Hg Hb]].
    rewrite !getitem_nonneg by lia.
    replace (Z.to_nat (3 * j)) with (3 * Z.to_nat j)%nat by lia.
    replace (Z.to_nat (3 * j + 1)) with (3 * Z.to_nat j + 1)%nat by lia.
    replace (Z.to_nat (3 * j + 2)) with (3 * Z.to_nat j + 2)%nat by lia.
    rewrite Hr, Hg, Hb. repeat split; reflexivity.
  - apply nth_error_None in E. lia.
Qed.

(** The byte indices visited are three times the pixel positions
    [range(0, len(pixels), pixel_stride)]. *)
Lemma sample_indices_raster (pixels : list pixel) :
  sample_indices (raster pixels) =
  map (fun j => 3 * j) (Py.range 0 (len pixels) (pixel_stride pixels)).
Proof.
  unfold sample_indices, Py.range, step. fold (pixel_stride pixels).
  rewrite map_map, raster_length.
  assert (Hk : 3 <= pixel_stride pixels) by (unfold pixel_stride; lia).
  assert (Hn : 0 <= len pixels) by (unfold len; lia).
  assert (Hlen : range_len 0 (3 * len pixels - 2) (pixel_stride pixels * 3) =
                 range_len 0 (len pixels) (pixel_stride pixels)).
  { unfold range_len.
    destruct (Z.leb_spec (3 * len pixels - 2) 0), (Z.leb_spec (len pixels) 0);
      try lia; try reflexivity.
    replace (3 * len pixels - 2 - 0 + pixel_stride pixels * 3 - 1)
      with (3 * (len pixels - 0 + pixel_stride pixels - 1)) by lia.
    replace (pixel_stride pixels * 3) with (3 * pixel_stride pixels) by lia.
    apply Z.div_mul_cancel_l; lia. }
  rewrite Hlen. apply map_ext. intros t. lia.
Qed.

Lemma range_within (stop stride j : Z) :
  0 < stride -> In j (Py.range 0 stop stride) -> 0 <= j < stop.
Proof.
  intros Hs Hin. apply range_elements in Hin; [| exact Hs].
  destruct Hin as [k [Hk ->]].
  pose proof (range_len_last stop stride k Hs Hk). nia.
Qed.

Lemma sample_loop_raster (pixels : list pixel) (js : list Z) :
  forall c,
    (forall j, In j js -> 0 <= j < len pixels) ->
    sample_loop (raster pixels) (map (fun j => 3 * j) js) c =
    Ok (fold_left (fun c p => tally (pixel_category p) c)
                  (map (fun j => nth (Z.to_nat j) pixels (x00, x00, x00)) js) c).
Proof.
  induction js as [| j rest IH]; intros c Hjs; [reflexivity |].
  destruct (getitem_raster pixels j (Hjs j (or_introl eq_refl)))
    as [r [g [b [Hp [Hr [Hg Hb]]]]]].
  cbn [map sample_loop fold_left]. unfold sample_at.
  rewrite Hr, Hg, Hb, Hp. cbn [bind].
  apply IH. intros j' Hj'. apply Hjs. now right.
Qed.

Lemma tally_fold_counts (ps : list pixel) :
  forall c,
    fold_left (fun c p => tally (pixel_category p) c) ps c =
    mkCounts (yellow_count c + count_of Yellow ps) (grey_count c + count_of Grey ps)
             (black_count c + count_of Black ps) (total_samples c + len ps).
Proof.
  unfold count_of, len.
  induction ps as [| p ps IH]; intros c.
  - destruct c. cbn. f_equal; lia.
  - cbn [fold_left filter]. rewrite IH.
    destruct (pixel_category p); cbn [category_eqb tally yellow_count grey_count
                                      black_count total_samples length];
      f_equal; lia.
Qed.

Lemma count_samples_raster :
  forall pixels : list pixel,
    count_samples (raster pixels) =
    Ok (mkCounts (count_of Yellow (sampled_pixels pixels))
                 (count_of Grey (sampled_pixels pixels))
                 (count_of Black (sampled_pixels pixels))
                 (len (sampled_pixels pixels))).
Proof.
  intros pixels. unfold count_samples.
  rewrite sample_indices_raster, sample_loop_raster.
  - fold (sampled_pixels pixels). now rewrite tally_fold_counts.
  - intros j Hj. apply (range_within _ (pixel_stride pixels)); [| exact Hj].
    unfold pixel_stride. lia.
Qed.

(** From 9000 bytes of pixel data on (3000 pixels), the loop takes between
    1000 and 1333 samples, whatever the size. *)
Theorem about_a_thousand_samples :
  forall pixel_data : list byte,
    9000 <= len pixel_data ->
    exists c, count_samples pixel_data = Ok c /\ 1000 <= total_samples c <= 1333.
Proof.
  intros pixel_data Hlen.
  destruct (count_samples_total pixel_data) as [c [H1 [_ H3]]].
  exists c. split; [exact H1 |]. rewrite H3.
  pose proof (sample_count_bound pixel_data) as Hhi. split; [| lia].
  unfold sample_indices, Py.range. rewrite length_map, length_seq.
  unfold range_len.
  destruct (Z.leb_spec (len pixel_data - 2) 0); [lia |].
  pose proof (step_pos pixel_data) as Hp.
  enough (1000 <= (len pixel_data - 2 - 0 + step pixel_data - 1) / step pixel_data) by lia.
  apply Z.div_le_lower_bound; [lia |].
  unfold step in *.
  pose proof (Z.mul_div_le (len pixel_data) 3000 ltac:(lia)) as Hq.
  destruct (Z.max_spec 3 (len pixel_data / 3000)) as [[Hm ->] | [Hm ->]]; lia.
Qed.

(** A black image of 3000 pixels. *)
Lemma about_a_thousand_samples_witness :
  exists c, count_samples (uniform x00 x00 x00 3000) = Ok c /\
            1000 <= total_samples c <= 1333.
Proof.
  apply (about_a_thousand_samples (uniform x00 x00 x00 3000)).
  rewrite uniform_length. lia.
Defined.

(** ** Reading a well-formed header *)


















(** ** Invariants and bounds of a run *)

Lemma slept_app (t u : list event) : slept (t ++ u) = slept t + slept u.
Proof.
  unfold slept. induction t as [| e t IH]; [reflexivity |].
  cbn [app fold_right]. rewrite IH. destruct e; lia.
Qed.

Lemma closes_after_unique (t : list event) (why why' : close_reason) (n n' : nat) :
  closes_after t why n -> closes_after t why' n' -> why = why' /\ n = n'.
Proof.
  intros [pre [-> [_ Hn]]] [pre' [Heq [_ Hn']]].
  apply app_inj_tail in Heq. destruct Heq as [-> Heq].
  injection Heq as ->. split; [reflexivity | congruence].
Qed.

(** One pass from locals that satisfy [locals_ok]. *)
Lemma attempt_body_keeps_ok (l l' : locals) (a : attempt) (evs : list event)
    (ret : option close_reason) :
  locals_ok l ->
  attempt_body l a = (l', evs, ret) ->
  match ret with
  | None => locals_ok (next_attempt l') /\ 0 <= slept evs <= 300
  | Some why =>
      300 <= slept evs <= 800 /\ why <> MonitorTimeout /\
      (why = YellowPassed -> 2 <= check_count l) /\
      (why = NoYellowTimeout -> 40 < check_count l /\ yellow_seen l = false)
  end.
Proof.
  unfold locals_ok. intros [Hc [Hp [Hp1 Hy]]] H.
  destruct a as [| | [[y g] b]]; cbn in H.
  - inversion H; subst. cbn. repeat split; try lia; tauto.
  - inversion H; subst. cbn. repeat split; try lia; tauto.
  - unfold grey_and_safety in H.
    destruct (20 <? y)%float.
    + cbn [check_count yellow_seen negb] in H. rewrite andb_false_r in H.
      destruct (50 <? g)%float; inversion H; subst; cbn;
        repeat split; try lia; try discriminate; try tauto.
    + destruct (yellow_seen l) eqn:Ey; cbn [andb] in H.
      * destruct (y <? 10)%float.
        -- cbn [post_yellow_frames check_count yellow_seen negb] in H.
           rewrite andb_false_r in H.
           destruct (Z.geb_spec (post_yellow_frames l + 1) 2) as [Hge | Hlt].
           ++ inversion H; subst; cbn.
              repeat split; try lia; try discriminate;
                try (intros _; apply Hp1; lia).
           ++ specialize (Hy eq_refl).
              destruct (50 <? g)%float; inversion H; subst; cbn;
                repeat split; try lia; try discriminate; try tauto.
        -- rewrite andb_false_r in H.
           destruct (50 <? g)%float; inversion H; subst; cbn;
             repeat split; try lia; try discriminate; try tauto.
      * cbn [negb] in H. rewrite andb_true_r in H.
        destruct (50 <? g)%float; [| destruct (Z.gtb_spec (check_count l) 40)];
          inversion H; subst; cbn;
          repeat split; try lia; try discriminate; try tauto; try congruence.
Qed.

(** The run from any pass on: it ends in its only call of [schedule_close];
    the captures stay within the budget, the sleeps within 250 to 550 ms a
    pass (800 ms for the pass that returns), and each reason has its
    earliest pass. *)
Lemma monitor_loop_summary (is_running : Z -> bool) (world : Z -> attempt) (fuel : nat) :
  forall l : locals,
    locals_ok l -> check_count l <= 80 ->
    (0 < fuel)%nat -> 80 - check_count l < Z.of_nat fuel ->
    exists why n,
      closes_after (monitor_loop fuel is_running world l) why n /\
      check_count l + Z.of_nat n <= 80 /\
      250 * Z.of_nat n <= slept (monitor_loop fuel is_running world l)
                       <= 550 * Z.of_nat n + 250 /\
      (why = YellowPassed -> 3 <= check_count l + Z.of_nat n) /\
      (why = NoYellowTimeout -> 42 <= check_count l + Z.of_nat n) /\
      (why = MonitorTimeout ->
       check_count l + Z.of_nat n = 80 \/
       is_running (check_count l + Z.of_nat n) = false) /\
      (why <> MonitorTimeout -> (1 <= n)%nat).
Proof.
  induction fuel as [| fuel IH]; intros l Hok Hcc Hpos Hfuel; [lia |].
  rewrite monitor_loop_unfold.
  destruct (is_running (check_count l)) eqn:Er; cbn [andb].
  - destruct (Z.ltb_spec (check_count l) 80) as [Hlt | Hge].
    + destruct (attempt_body l (world (check_count l))) as [[l' evs] ret] eqn:B.
      pose proof (attempt_body_keeps_ok _ _ _ _ _ Hok B) as K.
      destruct ret as [why |].
      * destruct K as [Hs [Hne [Hyp Hny]]].
        exists why, 1%nat.
        repeat split; try lia;
          try exact (attempt_body_returns _ _ _ _ _ B);
          try (intros E; specialize (Hyp E); lia);
          try (intros E; specialize (Hny E); lia);
          try (intros E; congruence).
      * destruct K as [Hok' Hs].
        destruct (attempt_body_goes_on _ _ _ _ B) as [Hc [Hn Hl']].
        destruct (IH (next_attempt l') Hok') as [why [n P]];
          try (cbn [next_attempt check_count]; lia).
        cbn [next_attempt check_count] in P. rewrite Hl' in P.
        destruct P as [Hcl [Hb [Hsl [Hyp [Hny [Hmt Hpn]]]]]].
        exists why, (1 + n)%nat.
        rewrite slept_app. cbn [slept fold_right].
        fold (slept (monitor_loop fuel is_running world (next_attempt l'))).
        repeat split; try lia;
          try (apply closes_after_app;
               [exact Hc | exact Hn | now apply closes_after_cons]);
          try (intros E; specialize (Hyp E); lia);
          try (intros E; specialize (Hny E); lia);
          try (intros E; specialize (Hpn E); lia).
        intros E. specialize (Hmt E).
        replace (check_count l + Z.of_nat (1 + n))
          with (check_count l + 1 + Z.of_nat n) by lia. exact Hmt.
    + exists MonitorTimeout, 0%nat.
      split; [exact closes_after_timeout |].
      cbn. repeat split; try lia; try discriminate; try congruence.
  - exists MonitorTimeout, 0%nat.
    split; [exact closes_after_timeout |].
    cbn. repeat split; try lia; try discriminate; try congruence.
    intros _. right. now rewrite Z.add_0_r.
Qed.

Lemma initial_locals_ok : locals_ok initial_locals.
Proof. unfold locals_ok. cbn. repeat split; try lia; discriminate. Qed.

Lemma monitor_vnc_summary (is_running : Z -> bool) (world : Z -> attempt) :
  exists why n,
    closes_after (monitor_vnc is_running world) why n /\
    (n <= 80)%nat /\
    2000 + 250 * Z.of_nat n <= slept (monitor_vnc is_running world)
                            <= 2250 + 550 * Z.of_nat n /\
    (why = YellowPassed -> (3 <= n)%nat) /\
    (why = NoYellowTimeout -> (42 <= n)%nat) /\
    (why = MonitorTimeout -> n = 80%nat \/ is_running (Z.of_nat n) = false) /\
    (why <> MonitorTimeout -> (1 <= n)%nat).
Proof.
  destruct (monitor_loop_summary is_running world 81 initial_locals initial_locals_ok)
    as [why [n [Hcl [Hb [Hsl [Hyp [Hny [Hmt Hpn]]]]]]]];
    try (cbn; lia).
  cbn [check_count initial_locals] in *.
  exists why, n. unfold monitor_vnc. cbn [slept fold_right].
  fold (slept (monitor_loop 81 is_running world initial_locals)).
  repeat split; try lia;
    try (now apply closes_after_cons);
    try (intros E; specialize (Hyp E); lia);
    try (intros E; specialize (Hny E); lia);
    try exact Hpn.
  intros E. destruct (Hmt E) as [H | H]; [left; lia | now right].
Qed.

(** ** From the file to the percentages *)


(** On the pixel data of a list of pixels the sampling loop reads whole
    pixels: it tallies the pixels at positions 0, stride, 2*stride, ... where
    stride = max(3, bytes // 3000), and its counters are the numbers of
    yellow, grey and black pixels among them and their number. *)
Theorem sampling_counts_every_stride_th_pixel :
  forall pixels : list pixel,
    count_samples (raster pixels) =
    Ok (mkCounts (count_of Yellow (sampled_pixels pixels))
                 (count_of Grey (sampled_pixels pixels))
                 (count_of Black (sampled_pixels pixels))
                 (len (sampled_pixels pixels))).
Proof. exact count_samples_raster. Qed.





(** A run never makes more than 80 capture attempts, and its thread reaches
    the call after the loop only with the budget used up or with
    [self.running] found cleared at the loop test. *)
Theorem capture_budget :
  forall (is_running : Z -> bool) (world : Z -> attempt) (why : close_reason) (n : nat),
    closes_after (monitor_vnc is_running world) why n ->
    (n <= 80)%nat /\
    (why = MonitorTimeout -> n = 80%nat \/ is_running (Z.of_nat n) = false) /\
    (why <> MonitorTimeout -> (1 <= n)%nat).
Proof.
  intros is_running world why n H.
  destruct (monitor_vnc_summary is_running world) as [why' [n' [H' P]]].
  destruct (closes_after_unique _ _ _ _ _ H H') as [-> ->]. tauto.
Qed.

(** The run in which every capture raises. *)
Lemma capture_budget_witness :
  (80 <= 80)%nat /\
  (MonitorTimeout = MonitorTimeout ->
   80%nat = 80%nat \/ always_running (Z.of_nat 80) = false) /\
  (MonitorTimeout <> MonitorTimeout -> (1 <= 80)%nat).
Proof.
  apply (capture_budget always_running every_capture_fails MonitorTimeout 80).
  apply (monitor_vnc_times_out always_running every_capture_fails (mkLocals 80 false 0)).
  - vm_compute. reflexivity.
  - reflexivity.
Defined.

(** No run closes through the hysteresis test before its third capture
    attempt, nor through the no-yellow safety test before its 42nd. *)
Theorem earliest_decisions :
  forall (is_running : Z -> bool) (world : Z -> attempt) (why : close_reason) (n : nat),
    closes_after (monitor_vnc is_running world) why n ->
    (why = YellowPassed -> (3 <= n)%nat) /\
    (why = NoYellowTimeout -> (42 <= n)%nat).
Proof.
  intros is_running world why n H.
  destruct (monitor_vnc_summary is_running world) as [why' [n' [H' P]]].
  destruct (closes_after_unique _ _ _ _ _ H H') as [-> ->]. tauto.
Qed.

(** The shortest hysteresis run: one frame of yellow, two clear frames. *)
Lemma earliest_decisions_witness :
  (YellowPassed = YellowPassed -> (3 <= 3)%nat) /\
  (YellowPassed = NoYellowTimeout -> (42 <= 3)%nat).
Proof.
  apply (earliest_decisions always_running (feed [yellow_80; yellow_5; yellow_5])
           YellowPassed 3).
  apply (monitor_vnc_closes_at always_running (feed [yellow_80; yellow_5; yellow_5]) 2
           (mkLocals 2 true 1) (mkLocals 2 true 2)
           [Screendump 2; Sleep 300; Sleep 300; ScheduleClose YellowPassed]).
  - reflexivity.
  - reflexivity.
  - reflexivity.
  - lia.
Defined.

(** A run that makes [n] capture attempts sleeps between 2 s + n * 0.25 s
    and 2.25 s + n * 0.55 s, so never more than 46.25 s; a run that uses up
    its 80 attempts sleeps 22 s or more. *)
Theorem sleep_bounds :
  forall (is_running : Z -> bool) (world : Z -> attempt) (why : close_reason) (n : nat),
    closes_after (monitor_vnc is_running world) why n ->
    2000 + 250 * Z.of_nat n <= slept (monitor_vnc is_running world)
                            <= 2250 + 550 * Z.of_nat n /\
    slept (monitor_vnc is_running world) <= 46250 /\
    (n = 80%nat -> 22000 <= slept (monitor_vnc is_running world)).
Proof.
  intros is_running world why n H.
  destruct (monitor_vnc_summary is_running world) as [why' [n' [H' P]]].
  destruct (closes_after_unique _ _ _ _ _ H H') as [-> ->].
  destruct P as [Hn [Hs _]]. repeat split; lia.
Qed.

(** The run in which every capture raises sleeps 22 s. *)
Lemma sleep_bounds_witness :
  2000 + 250 * Z.of_nat 80 <= slept (monitor_vnc always_running every_capture_fails)
                           <= 2250 + 550 * Z.of_nat 80 /\
  slept (monitor_vnc always_running every_capture_fails) <= 46250 /\
  (80%nat = 80%nat -> 22000 <= slept (monitor_vnc always_running every_capture_fails)).
Proof.
  apply (sleep_bounds always_running every_capture_fails MonitorTimeout 80).
  apply (monitor_vnc_times_out always_running every_capture_fails (mkLocals 80 false 0)).
  - vm_compute. reflexivity.
  - reflexivity.
Defined.

(** When the loop test finds [self.running] cleared, after [k] passes that
    did not return, the thread makes no further capture attempt: the trace
    ends there, in the call after the loop. *)
Theorem stops_when_running_is_cleared :
  forall (is_running : Z -> bool) (world : Z -> attempt) (k : nat) (l1 : locals),
    run_passes k world initial_locals = (l1, None) ->
    (forall j, 0 <= j < Z.of_nat k -> is_running j = true) ->
    is_running (Z.of_nat k) = false ->
    Z.of_nat k <= 80 ->
    closes_after (monitor_vnc is_running world) MonitorTimeout k.
Proof.
  intros is_running world k l1 Hrun Hon Hoff Hk. unfold monitor_vnc.
  apply closes_after_cons; [reflexivity | reflexivity |].
  destruct (monitor_loop_passes is_running world k 81 initial_locals l1)
    as [Hcc [pre [Heq [Hpre Hcap]]]].
  - lia.
  - exact Hrun.
  - intros j Hj. apply Hon. cbn in Hj. lia.
  - cbn. lia.
  - rewrite Heq. replace k with (k + 0)%nat at 2 by lia.
    apply closes_after_app; [exact Hpre | exact Hcap |].
    destruct (81 - k)%nat as [| fuel] eqn:E; [lia |].
    rewrite monitor_loop_unfold, Hcc. cbn [check_count initial_locals].
    rewrite Z.add_0_l, Hoff. exact closes_after_timeout.
Qed.

(** The overlay closed by its 20 s timer while the thread was in its fourth
    pass, on frames of yellow. *)
Lemma stops_when_running_is_cleared_witness :
  closes_after
    (monitor_vnc (fun k => k <? 4) (feed (repeat yellow_80 10))) MonitorTimeout 4.
Proof.
  apply (stops_when_running_is_cleared (fun k => k <? 4) (feed (repeat yellow_80 10)) 4
           (mkLocals 4 true 0)).
  - reflexivity.
  - intros j Hj. apply Z.ltb_lt. lia.
  - reflexivity.
  - lia.
Defined.

(** At the head of every pass [check_count] is the number of passes gone by,
    [post_yellow_frames] is 0 or 1, and it is 1 only once yellow has been
    seen. *)
Theorem locals_at_each_pass :
  forall (world : Z -> attempt) (n : nat) (l : locals),
    run_passes n world initial_locals = (l, None) ->
    check_count l = Z.of_nat n /\
    0 <= post_yellow_frames l <= 1 /\
    (post_yellow_frames l = 1 -> yellow_seen l = true).
Proof.
  intros world n.
  enough (G : forall l0 l, locals_ok l0 ->
                           run_passes n world l0 = (l, None) ->
                           check_count l = check_count l0 + Z.of_nat n /\ locals_ok l).
  { intros l H. destruct (G initial_locals l initial_locals_ok H) as [Hc Hok].
    unfold locals_ok in Hok. cbn in Hc. repeat split; try lia; tauto. }
  induction n as [| n IH]; intros l0 l Hok H.
  - cbn in H. injection H as <-. split; [lia | exact Hok].
  - cbn [run_passes] in H.
    destruct (attempt_body l0 (world (check_count l0))) as [[l' evs] ret] eqn:B.
    destruct ret as [why |]; [discriminate |].
    destruct (attempt_body_keeps_ok _ _ _ _ _ Hok B) as [Hok' _].
    destruct (attempt_body_goes_on _ _ _ _ B) as [_ [_ Hl']].
    destruct (IH _ _ Hok' H) as [Hc Hl]. split; [| exact Hl].
    rewrite Hc. cbn [next_attempt check_count]. lia.
Qed.

(** Three passes on yellow, clear, 15% yellow. *)
Lemma locals_at_each_pass_witness :
  check_count (mkLocals 3 true 1) = Z.of_nat 3 /\
  0 <= post_yellow_frames (mkLocals 3 true 1) <= 1 /\
  (post_yellow_frames (mkLocals 3 true 1) = 1 -> yellow_seen (mkLocals 3 true 1) = true).
Proof.
  apply (locals_at_each_pass (feed clear_frames_apart) 3 (mkLocals 3 true 1)).
  reflexivity.
Defined.

(** Once yellow has been seen it stays seen, and the no-yellow safety test
    closes no later pass. *)
Theorem yellow_seen_is_kept :
  forall (world : Z -> attempt) (n : nat) (l : locals),
    yellow_seen l = true ->
    yellow_seen (fst (run_passes n world l)) = true /\
    snd (run_passes n world l) <> Some NoYellowTimeout.
Proof.
  intros world n. induction n as [| n IH]; intros l Hy.
  - cbn. split; [exact Hy | discriminate].
  - cbn [run_passes].
    destruct (attempt_body l (world (check_count l))) as [[l' evs] ret] eqn:B.
    assert (Hl' : yellow_seen l' = true /\ ret <> Some NoYellowTimeout).
    { destruct (world (check_count l)) as [| | [[y g] b]]; cbn in B.
      - inversion B; subst. split; [exact Hy | discriminate].
      - inversion B; subst. split; [exact Hy | discriminate].
      - unfold grey_and_safety in B. rewrite Hy in B.
        cbn [yellow_seen negb andb] in B. rewrite !andb_false_r in B.
        destruct (20 <? y)%float; [| destruct (y <? 10)%float;
                                     [destruct (_ >=? _) |]];
          destruct (50 <? g)%float; inversion B; subst; cbn;
          split; try assumption; try reflexivity; discriminate. }
    destruct Hl' as [Hy' Hret].
    destruct ret as [why |]; [cbn; split; assumption |].
    apply IH. exact Hy'.
Qed.

(** Forty-five passes without any signal after one frame of yellow. *)
Lemma yellow_seen_is_kept_witness :
  yellow_seen (fst (run_passes 45 silence (mkLocals 1 true 0))) = true /\
  snd (run_passes 45 silence (mkLocals 1 true 0)) <> Some NoYellowTimeout.
Proof.
  apply (yellow_seen_is_kept silence 45 (mkLocals 1 true 0)). reflexivity.
Defined.
